(** * PDPbox [info_plots]: a shallow embedding of [target_plot] and
      [actual_plot] and the properties of their validation, aggregation
      and effects.

    The two entry points of [pdpbox/info_plots.py] are embedded as programs
    of a state-and-exception monad.  The state holds the heap of mutable
    pandas frames (so that aliasing between the caller's [df] and the
    working copy is visible) and the matplotlib canvas (the sequence of
    drawing calls issued so far).  pandas, numpy and matplotlib are
    libraries: the few operations used by the source are given executable
    definitions here.  The two collaborators of [info_plot_utils] that the
    source only calls (grid builder and renderers) are Section variables. *)

From Stdlib Require Import QArith Qcanon.
From stdpp Require Import sorting numbers pretty strings gmap fin_maps list.

Local Open Scope Qc_scope.

(** ** Python values *)

(** A numeric cell.  Python compares [int], [float] and [bool] by numeric
    value ([0 == 0.0 == False]), so one numeric domain, the rationals, is
    used for all of them; [NaN] is the null cell of pandas. *)
Inductive cell :=
  | NaN
  | Num (q : Qc).

Global Instance cell_eq_dec : EqDecision cell.
Proof. solve_decision. Defined.

(** The number held by a cell, if any. *)
Definition cell_num (c : cell) : option Qc :=
  match c with Num q => Some q | NaN => None end.

(** The distinct numbers among some cells, in ascending order. *)
Definition distinct_ascending (xs : list cell) : list Qc :=
  merge_sort Qcle (remove_dups (omap cell_num xs)).

(** Python [a < b] on cells: every comparison with [nan] is [False]. *)
Definition cell_lt (a b : cell) : bool :=
  match a, b with
  | Num x, Num y => bool_decide (x < y)
  | _, _ => false
  end.

(** Python [a == b] on cells: [nan] is equal to nothing. *)
Definition cell_eq (a b : cell) : bool :=
  match a, b with
  | Num x, Num y => bool_decide (x = y)
  | _, _ => false
  end.

(** Python [l1 == l2] on lists: same length and pairwise [==]. *)
Fixpoint py_list_eq (l1 l2 : list cell) : bool :=
  match l1, l2 with
  | [], [] => true
  | a :: l1', b :: l2' => cell_eq a b && py_list_eq l1' l2'
  | _, _ => false
  end.

(** Python [sorted]: a stable sort driven by [<] only.  An element is put
    in front of the first element that is not smaller than it. *)
Fixpoint py_insert (x : cell) (l : list cell) : list cell :=
  match l with
  | [] => [x]
  | y :: l' => if cell_lt y x then y :: py_insert x l' else x :: l
  end.

Definition py_sorted (l : list cell) : list cell := foldr py_insert [] l.

(** A feature or target argument: Python dispatches on [type(...) == str]
    and [type(...) == list]; anything else is a third case. *)
Inductive colspec :=
  | PStr (s : string)
  | PList (l : list string)
  | POther.

(** ** Exceptions *)

(** The [raise] sites of the module, one constructor per message. *)
Inductive message :=
  | FeatureNotExist (f : colspec)
  | OneHotFeatureTooShort
  | FeatureBadType
  | RangeLength
  | RangeBounds
  | TargetNotExist (t : colspec)
  | MultiClassTooShort
  | TargetNotOneHot (c : string)
  | TargetBadType
  | ClassNotExist.

Inductive exn :=
  | ValueError (m : message)
  | KeyError (k : string)
  | TypeError
  | AttributeError
  | ZeroDivisionError
  | IndexError
  | CollaboratorError (what : string).

Inductive result (A : Type) :=
  | Ok (a : A)
  | Raise (e : exn).
Arguments Ok {A} a.
Arguments Raise {A} e.

Global Instance result_ret : MRet result := λ A a, Ok a.
Global Instance result_bind : MBind result := λ A B f m,
  match m with Ok a => f a | Raise e => Raise e end.

(** What a collaborator of [info_plot_utils] (or matplotlib) does when
    called: it returns, or it raises an exception of its own.  Such an
    exception passes through the entry points unchanged; it is not one of
    the [raise] sites of this module. *)
Inductive outcome (A : Type) :=
  | Returned (a : A)
  | Failed (what : string).
Arguments Returned {A} a.
Arguments Failed {A} what.

Definition from_collaborator {A} (o : outcome A) : result A :=
  match o with
  | Returned a => Ok a
  | Failed what => Raise (CollaboratorError what)
  end.

(** The error taxonomy of the specification, and the class of each
    exception of the module.  Exceptions that come from somewhere else
    (a failed lookup, a comparison with [None], a collaborator) are in no
    class. *)
Inductive error_class :=
  | InvalidFeature
  | InvalidTarget
  | InvalidRange
  | InvalidClassSelector.

Definition taxonomy (e : exn) : option error_class :=
  match e with
  | ValueError (FeatureNotExist _) => Some InvalidFeature
  | ValueError OneHotFeatureTooShort => Some InvalidFeature
  | ValueError FeatureBadType => Some InvalidFeature
  | ValueError RangeLength => Some InvalidRange
  | ValueError RangeBounds => Some InvalidRange
  | ValueError (TargetNotExist _) => Some InvalidTarget
  | ValueError MultiClassTooShort => Some InvalidTarget
  | ValueError (TargetNotOneHot _) => Some InvalidTarget
  | ValueError TargetBadType => Some InvalidTarget
  | ValueError ClassNotExist => Some InvalidClassSelector
  | _ => None
  end.

(** ** numpy *)

(** [np.unique]: the distinct values in ascending order, the null value
    (if any) last. *)
Definition np_unique (l : list cell) : list cell :=
  (Num <$> distinct_ascending l)
  ++ (if bool_decide (NaN ∈ l) then [NaN] else []).

(** [np.max] and [np.min] of a sequence of cells; numpy raises on an
    empty one, and a null cell makes the result null. *)
Definition Qc_max (a b : Qc) : Qc := if decide (a ≤ b) then b else a.
Definition Qc_min (a b : Qc) : Qc := if decide (a ≤ b) then a else b.

Definition cell_max (a b : cell) : cell :=
  match a, b with
  | Num x, Num y => Num (Qc_max x y)
  | _, _ => NaN
  end.

Definition cell_min (a b : cell) : cell :=
  match a, b with
  | Num x, Num y => Num (Qc_min x y)
  | _, _ => NaN
  end.

Definition np_max (l : list cell) : result cell :=
  match l with
  | [] => Raise (CollaboratorError "zero-size array")
  | a :: l' => Ok (foldr cell_max a l')
  end.

Definition np_min (l : list cell) : result cell :=
  match l with
  | [] => Raise (CollaboratorError "zero-size array")
  | a :: l' => Ok (foldr cell_min a l')
  end.

(** ** pandas frames *)

(** A frame: its column labels in order, and its rows.  A row maps a
    label to the cell it holds, so that columns that share a label (as
    after [d[cs]] with a label listed twice) hold the same cells. *)
Record DataFrame := {
  columns : list string;
  rows : list (gmap string cell)
}.

Global Instance DataFrame_eq_dec : EqDecision DataFrame.
Proof. solve_decision. Defined.

(** The cell of row [r] under label [c]. *)
Definition at_col (c : string) (r : gmap string cell) : cell :=
  default NaN (r !! c).

(** [d[c]] for one label. *)
Definition getitem (d : DataFrame) (c : string) : result (list cell) :=
  if decide (c ∈ columns d) then Ok (at_col c <$> rows d)
  else Raise (KeyError c).

(** [d[cs].copy()] for a list of labels: a new frame with these columns. *)
Definition select (d : DataFrame) (cs : list string) : result DataFrame :=
  match list_find (λ c, c ∉ columns d) cs with
  | Some (_, c) => Raise (KeyError c)
  | None =>
      Ok {| columns := cs;
            rows := filter (λ kv, kv.1 ∈ cs) <$> rows d |}
  end.

(** [d[c] = v] for a scalar [v]: every row gets [v] under [c]; the label
    is appended when it is new. *)
Definition setitem_scalar (d : DataFrame) (c : string) (v : cell) : DataFrame :=
  {| columns := if decide (c ∈ columns d) then columns d else columns d ++ [c];
     rows := <[c := v]> <$> rows d |}.

(** The test [sorted(list(np.unique(col))) == [0, 1]] of the source. *)
Definition unique_is_01 (col : list cell) : bool :=
  py_list_eq (py_sorted (np_unique col)) [Num 0; Num 1].

(** ** [target_plot]: validation (lines 124-166) *)

Inductive feature_type := binary | numeric | onehot.
Inductive target_type := binary_target | regression | multi_class.

(** [set(a) < set(b)], the proper-subset test on Python sets. *)
Definition set_lt (a b : list string) : bool :=
  bool_decide (list_to_set a ⊂@{gset string} list_to_set b).

(** Lines 124-139, "check feature". *)
Definition check_feature (d : DataFrame) (feature : colspec) : result feature_type :=
  match feature with
  | PStr f =>
      if decide (f ∉ columns d) then Raise (ValueError (FeatureNotExist feature))
      else
        col ← getitem d f;
        if unique_is_01 col then Ok binary else Ok numeric
  | PList l =>
      if decide (length l < 2)%nat then Raise (ValueError OneHotFeatureTooShort)
      else if negb (set_lt l (columns d)) then
        Raise (ValueError (FeatureNotExist feature))
      else Ok onehot
  | POther => Raise (ValueError FeatureBadType)
  end.

(** Lines 141-146, "check percentile_range".  The two comparisons are
    Python's: with a null maximum or minimum both are [False]. *)
Definition check_percentile_range (percentile_range : option (list cell)) : result unit :=
  match percentile_range with
  | None => Ok ()
  | Some pr =>
      if decide (length pr ≠ 2%nat) then Raise (ValueError RangeLength)
      else
        hi ← np_max pr;
        if cell_lt (Num (Qc_of_Z 100)) hi then Raise (ValueError RangeBounds)
        else
          lo ← np_min pr;
          if cell_lt lo (Num 0) then Raise (ValueError RangeBounds)
          else Ok ()
  end.

(** Lines 161-163: the loop over the listed target columns; the first
    column that is not 0/1-valued raises. *)
Fixpoint check_onehot_targets (d : DataFrame) (ts : list string) : result unit :=
  match ts with
  | [] => Ok ()
  | t :: ts' =>
      col ← getitem d t;
      if negb (unique_is_01 col) then Raise (ValueError (TargetNotOneHot t))
      else check_onehot_targets d ts'
  end.

(** Lines 148-166, "check target values". *)
Definition check_target (d : DataFrame) (target : colspec) : result target_type :=
  match target with
  | PStr t =>
      if decide (t ∉ columns d) then Raise (ValueError (TargetNotExist target))
      else
        col ← getitem d t;
        if unique_is_01 col then Ok binary_target else Ok regression
  | PList l =>
      if decide (length l < 2)%nat then Raise (ValueError MultiClassTooShort)
      else if negb (set_lt l (columns d)) then
        Raise (ValueError (TargetNotExist target))
      else
        _ ← check_onehot_targets d l;
        Ok multi_class
  | POther => Raise (ValueError TargetBadType)
  end.

(** ** pandas group-by (lines 187-198) *)

(** The keys of [groupby]: the distinct non-null values, ascending.  Rows
    whose key is null belong to no group. *)
Definition group_keys (xs : list cell) : list Qc := distinct_ascending xs.

Definition Qc_of_nat (n : nat) : Qc := Qc_of_Z (Z.of_nat n).

(** The two aggregations used by the source.  ['count'] counts the
    non-null cells; ['mean'] averages them and is null when there is
    none.  The mean here is the exact quotient of the sum by the count;
    pandas computes both in double precision and returns the quotient
    rounded to a double. *)
Inductive aggfun := count | mean.

Definition Qc_sum (l : list Qc) : Qc := foldr Qcplus 0 l.

Definition aggregate (f : aggfun) (vs : list cell) : cell :=
  let ns := omap cell_num vs in
  match f with
  | count => Num (Qc_of_nat (length ns))
  | mean =>
      match ns with
      | [] => NaN
      | _ => Num (Qc_sum ns / Qc_of_nat (length ns))
      end
  end.

(** The rows of [d] whose cell under [key] is the number [k]. *)
Definition group_rows (d : DataFrame) (key : string) (k : Qc) : list (gmap string cell) :=
  filter (λ r, at_col key r = Num k) (rows d).

(** [d.groupby(key, as_index=False).agg({col: f})]: one row per key, in
    ascending key order, holding the key and the aggregate of [col].  The
    table has the key column, then every column of [d] labelled [col]
    other than the key: none when the aggregated column is the key itself
    (the one column then holds the keys), one when the labels of [d] are
    distinct. *)
Definition groupby_agg (d : DataFrame) (key col : string) (f : aggfun) : result DataFrame :=
  if decide (key ∉ columns d) then Raise (KeyError key)
  else if decide (col ∉ columns d) then Raise (KeyError col)
  else
    Ok {| columns := key :: filter (λ c, c = col ∧ c ≠ key) (columns d);
          rows := (λ k, <[key := Num k]>
                          {[ col := aggregate f (at_col col <$> group_rows d key k) ]})
                  <$> group_keys (at_col key <$> rows d) |}.

(** The order of [sort_values(key, ascending=True)]: numbers ascending,
    null cells last. *)
Definition cell_le (a b : cell) : Prop :=
  match a, b with
  | Num x, Num y => x ≤ y
  | _, NaN => True
  | NaN, Num _ => False
  end.

Global Instance cell_le_dec : RelDecision cell_le.
Proof. intros [|x] [|y]; simpl; apply _. Defined.

Definition row_le (key : string) (r1 r2 : gmap string cell) : Prop :=
  cell_le (at_col key r1) (at_col key r2).

Global Instance row_le_dec key : RelDecision (row_le key).
Proof. intros r1 r2. unfold row_le. apply _. Defined.

Definition sort_values (d : DataFrame) (key : string) : result DataFrame :=
  if decide (key ∉ columns d) then Raise (KeyError key)
  else Ok {| columns := columns d; rows := merge_sort (row_le key) (rows d) |}.

(** One aggregated and sorted table, as both the bar data and every
    target line are made. *)
Definition grouped (d : DataFrame) (col : string) (f : aggfun) : result DataFrame :=
  g ← groupby_agg d "x" col f;
  sort_values g "x".

(** Lines 195-198: one target line per listed target column. *)
Fixpoint target_lines_loop (data_x : DataFrame) (ts : list string) : result (list DataFrame) :=
  match ts with
  | [] => Ok []
  | t :: ts' =>
      target_line ← grouped data_x t mean;
      rest ← target_lines_loop data_x ts';
      Ok (target_line :: rest)
  end.

(** Lines 189-198, "prepare data for target lines". *)
Definition make_target_lines (data_x : DataFrame) (target : colspec) (tt : target_type)
    : result (list DataFrame) :=
  match tt, target with
  | multi_class, PList l => target_lines_loop data_x l
  | multi_class, _ => Raise TypeError
  | _, PStr t => target_line ← grouped data_x t mean; Ok [target_line]
  | _, _ => Raise TypeError
  end.

(** Lines 168-177: the working column subset. *)
Definition spec_names (s : colspec) : list string :=
  match s with
  | PStr c => [c]
  | PList l => l
  | POther => []
  end.

(** ** Mutable state *)

Definition loc := positive.

(** A drawing call on the matplotlib canvas. *)
Inductive draw_event :=
  | Figure (width height : Qc)
  | Subplot (position : Z)
  | Drawn (what : string).

Inductive Axes := AxesId (n : nat).

(** What a Python call hands back: [None] or an axes handle. *)
Inductive pyret :=
  | PyNone
  | PyAxes (a : Axes).

Record state := {
  heap : gmap loc DataFrame;
  canvas : list draw_event
}.

Definition M (A : Type) : Type := state → result A * state.

Global Instance M_ret : MRet M := λ A a σ, (Ok a, σ).
Global Instance M_bind : MBind M := λ A B f m σ,
  match m σ with
  | (Ok a, σ') => f a σ'
  | (Raise e, σ') => (Raise e, σ')
  end.

Definition lift {A} (r : result A) : M A := λ σ, (r, σ).

(** Reading the frame a reference points to; a reference to no frame is
    an object without the attribute asked for. *)
Definition load (l : loc) : M DataFrame := λ σ,
  match heap σ !! l with
  | Some d => (Ok d, σ)
  | None => (Raise AttributeError, σ)
  end.

Definition store (l : loc) (d : DataFrame) : M unit := λ σ,
  (Ok (), {| heap := <[l := d]> (heap σ); canvas := canvas σ |}).

(** A new frame object, at an address not in use. *)
Definition alloc (d : DataFrame) : M loc := λ σ,
  let l := fresh (dom (heap σ)) in
  (Ok l, {| heap := <[l := d]> (heap σ); canvas := canvas σ |}).

(** A call that only draws. *)
Definition draw {A} (f : list draw_event → outcome A * list draw_event) : M A := λ σ,
  let '(r, c) := f (canvas σ) in
  (from_collaborator r, {| heap := heap σ; canvas := c |}).

(** [plt.figure(figsize=(w, h))] and [plt.subplot(position)]. *)
Definition plt_figure (w h : Qc) : M unit :=
  draw (λ c, (Returned (), c ++ [Figure w h])).

Definition plt_subplot (position : Z) : M Axes :=
  draw (λ c, (Returned (AxesId (length c)), c ++ [Subplot position])).

(** The frame the grid builder hands back: the object it was given, or a
    new one. *)
Inductive frame_ref :=
  | SameObject
  | NewObject (d : DataFrame).

(** A cell of a [GridSpec(nrows, ncols)]; [outer[i]] raises when [i] is
    out of range. *)
Record GridSpec := { nrows : Z; ncols : Z }.

(** [GridSpec(nrows, ncols)]: matplotlib refuses a number of rows or of
    columns that is not positive, with an error of its own. *)
Definition gridspec_new (nrows ncols : Z) : result GridSpec :=
  if decide (0 < nrows ∧ 0 < ncols)%Z
  then Ok {| nrows := nrows; ncols := ncols |}
  else Raise (CollaboratorError "GridSpec: rows and columns must be positive").

Inductive SubplotSpec := SubplotCell (g : GridSpec) (i : nat).

Definition gridspec_getitem (g : GridSpec) (i : nat) : result SubplotSpec :=
  if decide (Z.of_nat i < nrows g * ncols g)%Z then Ok (SubplotCell g i)
  else Raise IndexError.

(** The result handed to [actual_plot]: one [pdp_isolate_obj], or a dict
    from class label to one. *)
Inductive isolate_out (obj : Type) :=
  | Single (o : obj)
  | ClassDict (d : gmap string obj).
Arguments Single {obj} o.
Arguments ClassDict {obj} d.

(** ['class_%d' % n] *)
Definition class_key (n : Z) : string := "class_" +:+ pretty n.

(** ** The entry points *)

(** Arguments the source only passes through to the collaborators. *)
Record grid_config := {
  num_grid_points : Z;
  grid_type : string;
  grid_range : option (list Qc);
  cust_grid_points : option (list Qc);
  show_percentile : bool
}.

(** What the renderer [_target_plot] is called with (lines 200-202). *)
Record target_plot_args (params : Type) := {
  tp_feature_name : string;
  tp_display_columns : list string;
  tp_percentile_columns : option (list string);
  tp_target : colspec;
  tp_bar_data : DataFrame;
  tp_target_lines : list DataFrame;
  tp_figsize : option (Qc * Qc);
  tp_ax : option Axes;
  tp_plot_params : params
}.
Arguments tp_feature_name {params} _.
Arguments tp_display_columns {params} _.
Arguments tp_percentile_columns {params} _.
Arguments tp_target {params} _.
Arguments tp_bar_data {params} _.
Arguments tp_target_lines {params} _.
Arguments tp_figsize {params} _.
Arguments tp_ax {params} _.
Arguments tp_plot_params {params} _.

Section info_plots.
(** The type of [plot_params] and of a [pdp_isolate_obj]. *)
Context {params pdp_isolate_obj : Type}.

(** The collaborators of [info_plot_utils].  The grid builder is handed
    one frame object: it gets the contents and gives back the contents
    it leaves in that object, together with its result.  The renderers
    act on the canvas. *)
Variable _prepare_data_x :
  colspec → feature_type → DataFrame → grid_config → option (list cell) →
  outcome (frame_ref * list string * option (list string)) * DataFrame.
Variable _target_plot :
  target_plot_args params → list draw_event → outcome Axes * list draw_event.
Variable _actual_plot_title :
  string → Axes → option (Qc * Qc) → bool → option Z → params →
  list draw_event → outcome unit * list draw_event.
Variable _actual_plot :
  pdp_isolate_obj → string → Qc → params → option SubplotSpec →
  list draw_event → outcome unit * list draw_event.

(** The call of the grid builder on the object at [data] (lines
    181-184): the object is updated in place, and the reference to
    [data_x] is [data] itself or a new object. *)
Definition call_prepare_data_x (data : loc) (feature : colspec) (ft : feature_type)
    (cfg : grid_config) (percentile_range : option (list cell))
    : M (loc * list string * option (list string)) :=
  d ← load data;
  let '(r, d') := _prepare_data_x feature ft d cfg percentile_range in
  _ ← store data d';
  '(ref, display_columns, percentile_columns) ← lift (from_collaborator r);
  match ref with
  | SameObject => mret (data, display_columns, percentile_columns)
  | NewObject dx =>
      data_x ← alloc dx;
      mret (data_x, display_columns, percentile_columns)
  end.

(** Lines 186-198 on the contents of [data_x]. *)
Definition aggregator (dx : DataFrame) (target : colspec) (tt : target_type)
    : result (DataFrame * list DataFrame) :=
  bar_data ← grouped dx "fake_count" count;
  target_lines ← make_target_lines dx target tt;
  Ok (bar_data, target_lines).

(** [target_plot], lines 73-203. *)
Definition target_plot (df : loc) (feature : colspec) (feature_name : string)
    (target : colspec) (cfg : grid_config) (percentile_range : option (list cell))
    (figsize : option (Qc * Qc)) (ax : option Axes) (plot_params : params)
    : M pyret :=
  d ← load df;
  ft ← lift (check_feature d feature);
  _ ← lift (check_percentile_range percentile_range);
  tt ← lift (check_target d target);
  let useful_features := spec_names feature ++ spec_names target in
  copy ← lift (select d useful_features);
  data ← alloc copy;
  '(data_x, display_columns, percentile_columns) ←
    call_prepare_data_x data feature ft cfg percentile_range;
  dx ← load data_x;
  _ ← store data_x (setitem_scalar dx "fake_count" (Num 1));
  dx ← load data_x;
  '(bar_data, target_lines) ← lift (aggregator dx target tt);
  axes ← draw (_target_plot
    {| tp_feature_name := feature_name;
       tp_display_columns := display_columns;
       tp_percentile_columns := percentile_columns;
       tp_target := target;
       tp_bar_data := bar_data;
       tp_target_lines := target_lines;
       tp_figsize := figsize;
       tp_ax := ax;
       tp_plot_params := plot_params |});
  mret (PyAxes axes).

(** Lines 31-33, "check which_class".  The length of the key view is
    taken before the comparison; a [pdp_isolate_obj] has no [keys], and
    [None] does not compare with an integer. *)
Definition check_which_class (pdp_isolate_out : isolate_out pdp_isolate_obj)
    (multi_flag : bool) (which_class : option Z) : result unit :=
  if multi_flag then
    n ← match pdp_isolate_out with
        | ClassDict d => Ok (size d)
        | Single _ => Raise AttributeError
        end;
    wc ← match which_class with
         | Some z => Ok z
         | None => Raise TypeError
         end;
    if decide (wc >= Z.of_nat n)%Z then Raise (ValueError ClassNotExist)
    else Ok ()
  else Ok ().

(** Lines 35-38; [figsize] is a pair [(width, height)]. *)
Definition figure_width (figsize : option (Qc * Qc)) : Qc :=
  match figsize with
  | None => Qc_of_Z 16
  | Some (w, _) => w
  end.

(** [int(np.ceil(float(n) / ncols))] *)
Definition ceil_div (n ncols : Z) : result Z :=
  if decide (ncols = 0)%Z then Raise ZeroDivisionError
  else Ok (- ((- n) `div` ncols))%Z.

(** Lines 56-59: one panel per class, in the order [class_0],
    [class_1], ...  The arguments are evaluated left to right, so a
    missing class raises before the grid cell is taken. *)
Fixpoint class_panels (d : gmap string pdp_isolate_obj) (feature_name : string)
    (figwidth : Qc) (plot_params : params) (outer : GridSpec)
    (classes : list nat) : M unit :=
  match classes with
  | [] => mret ()
  | n_class :: rest =>
      o ← lift (match d !! class_key (Z.of_nat n_class) with
                | Some o => Ok o
                | None => Raise (KeyError (class_key (Z.of_nat n_class)))
                end);
      cell ← lift (gridspec_getitem outer n_class);
      _ ← draw (_actual_plot o (feature_name +:+ " " +:+ class_key (Z.of_nat n_class))
                  figwidth plot_params (Some cell));
      class_panels d feature_name figwidth plot_params outer rest
  end.

(** [actual_plot], lines 10-70.  The function has no [return]. *)
Definition actual_plot (pdp_isolate_out : isolate_out pdp_isolate_obj)
    (feature_name : string) (figsize : option (Qc * Qc)) (plot_params : params)
    (multi_flag : bool) (which_class : option Z) (ncols : option Z) : M pyret :=
  _ ← lift (check_which_class pdp_isolate_out multi_flag which_class);
  let figwidth := figure_width figsize in
  _ ← plt_figure figwidth (figwidth / Q2Qc (67 # 10));
  ax1 ← plt_subplot 111;
  match pdp_isolate_out, multi_flag with
  | ClassDict d, false =>
      let n_classes := size d in
      _ ← draw (_actual_plot_title feature_name ax1 figsize multi_flag which_class
                  plot_params);
      let ncols := default 2%Z ncols in
      nrows ← lift (ceil_div (Z.of_nat n_classes) ncols);
      _ ← plt_figure figwidth (figwidth / Qc_of_Z ncols * Qc_of_Z nrows);
      outer ← lift (gridspec_new nrows ncols);
      _ ← class_panels d feature_name figwidth plot_params outer (seq 0 n_classes);
      mret PyNone
  | _, _ =>
      _pdp_isolate_out ←
        lift (if multi_flag then
                match pdp_isolate_out, which_class with
                | ClassDict d, Some wc =>
                    match d !! class_key wc with
                    | Some o => Ok o
                    | None => Raise (KeyError (class_key wc))
                    end
                | _, _ => Raise TypeError
                end
              else
                match pdp_isolate_out with
                | Single o => Ok o
                | ClassDict _ => Raise TypeError
                end);
      _ ← draw (_actual_plot_title feature_name ax1 figsize multi_flag which_class
                  plot_params);
      _ ← draw (_actual_plot _pdp_isolate_out feature_name figwidth plot_params None);
      mret PyNone
  end.
End info_plots.

(** ** Vocabulary of the statements *)

(** The cells of column [c], row by row. *)
Definition column (d : DataFrame) (c : string) : list cell := at_col c <$> rows d.

(** The set of distinct values of a column is exactly {0, 1}. *)
Definition values_01 (col : list cell) : Prop :=
  ∀ v, v ∈ col ↔ v = Num 0 ∨ v = Num 1.

(** The set of distinct values of a column is a non-empty subset of
    {0, 1}. *)
Definition values_within_01 (col : list cell) : Prop :=
  col ≠ [] ∧ ∀ v, v ∈ col → v = Num 0 ∨ v = Num 1.

(** The bin ids of an aggregated table, top to bottom. *)
Definition bin_ids (g : DataFrame) : list cell := column g "x".



(** A successful [target_plot] call ended in state [σ'] with the renderer
    returning [axes] for the arguments [args]: the bar data and the target
    lines among them are the aggregates of the binned frame [dx], which is
    the frame of the grid builder with the count marker added and is a
    frame object of [σ']. *)
Definition rendered_from {params}
    (renderer : target_plot_args params → list draw_event →
                outcome Axes * list draw_event)
    (dx : DataFrame) (target : colspec) (args : target_plot_args params)
    (axes : Axes) (σ' : state) : Prop :=
  (∃ dx0, dx = setitem_scalar dx0 "fake_count" (Num 1)) ∧
  (∃ data_x, heap σ' !! data_x = Some dx) ∧
  (∃ tt, aggregator dx target tt = Ok (tp_bar_data args, tp_target_lines args)) ∧
  (∃ c, renderer args c = (Returned axes, canvas σ')).

(** The keys of a multi-class result are class labels [class_i] of
    class indices [i = 0, 1, ...]. *)
Definition class_dict_wf {obj} (d : gmap string obj) : Prop :=
  ∀ k, is_Some (d !! k) → ∃ i : nat, k = class_key (Z.of_nat i).

(** A number is a percentile: between 0 and 100, bounds included. *)
Definition in_percent (q : Qc) : Prop := 0 ≤ q ∧ q ≤ Qc_of_Z 100.

(** The pairs that the bound test of the percentile block lets through:
    two numbers that are percentiles, and any pair that holds a null, for
    which the maximum and the minimum are null and both comparisons false. *)
Definition percent_pair (a b : cell) : Prop :=
  match a, b with
  | Num x, Num y => in_percent x ∧ in_percent y
  | _, _ => True
  end.

(** The shape of a feature or target argument that the validation lets
    through: the name of a column, or a list of two names or more, all of
    them columns, that leaves out a column at least. *)
Definition names_accepted (d : DataFrame) (s : colspec) : Prop :=
  match s with
  | PStr c => c ∈ columns d
  | PList l =>
      (2 ≤ length l)%nat ∧ (∀ c, c ∈ l → c ∈ columns d) ∧
      ∃ c, c ∈ columns d ∧ c ∉ l
  | POther => False
  end.

(** The binned frame [data_x] that the grid builder hands back, given the
    contents [d'] it leaves in the object it was called on. *)
Definition binned_frame (ref : frame_ref) (d' : DataFrame) : DataFrame :=
  match ref with
  | SameObject => d'
  | NewObject dx => dx
  end.

(** A multi-class result with all its classes: its keys are exactly the
    labels [class_0], ..., [class_(n-1)] for its [n] entries. *)
Definition class_dict_complete {obj} (d : gmap string obj) : Prop :=
  ∀ k, is_Some (d !! k) ↔ ∃ i : nat, (i < size d)%nat ∧ k = class_key (Z.of_nat i).

(** ** A concrete setting: collaborators and data to run the model on *)

Module Example.
(** A grid builder for a single numeric column: the bin id of a row is
    the value of the feature; the frame it is given is updated in
    place and handed back. *)
Definition prepare (feature : colspec) (ft : feature_type) (data : DataFrame)
    (cfg : grid_config) (percentile_range : option (list cell))
    : outcome (frame_ref * list string * option (list string)) * DataFrame :=
  match feature with
  | PStr f =>
      (Returned (SameObject, [], None),
       {| columns := columns data ++ ["x"];
          rows := (λ r, <["x" := at_col f r]> r) <$> rows data |})
  | _ => (Failed "one-hot grids are not built here", data)
  end.

Definition render (args : target_plot_args unit) (c : list draw_event)
    : outcome Axes * list draw_event :=
  (Returned (AxesId (length c)), c ++ [Drawn "target plot"]).

Definition title (feature_name : string) (ax : Axes) (figsize : option (Qc * Qc))
    (multi_flag : bool) (which_class : option Z) (plot_params : unit)
    (c : list draw_event) : outcome unit * list draw_event :=
  (Returned (), c ++ [Drawn "title"]).

Definition panel (o : nat) (feature_name : string) (figwidth : Qc)
    (plot_params : unit) (outer : option SubplotSpec) (c : list draw_event)
    : outcome unit * list draw_event :=
  (Returned (), c ++ [Drawn feature_name]).

Definition cfg : grid_config :=
  {| num_grid_points := 10; grid_type := "percentile"; grid_range := None;
     cust_grid_points := None; show_percentile := false |}.

Definition row (age y : Z) : gmap string cell :=
  {[ "age" := Num (Qc_of_Z age); "y" := Num (Qc_of_Z y) ]}.

(** Column [age] = 10, 10, 20, 30 and target [y] = 0, 1, 1, 0. *)
Definition ages : DataFrame :=
  {| columns := ["age"; "y"]; rows := [row 10 0; row 10 1; row 20 1; row 30 0] |}.

(** A column [flag] that only ever holds 0. *)
Definition zeros : DataFrame :=
  {| columns := ["flag"; "y"];
     rows := [ {[ "flag" := Num 0; "y" := Num 0 ]}; {[ "flag" := Num 0; "y" := Num 1 ]} ] |}.

(** Two one-hot columns and nothing else. *)
Definition onehots : DataFrame :=
  {| columns := ["a"; "b"];
     rows := [ {[ "a" := Num 1; "b" := Num 0 ]}; {[ "a" := Num 0; "b" := Num 1 ]} ] |}.

(** A numeric column, a one-hot column [a], and a column [b] that
    holds a 2. *)
Definition mixed : DataFrame :=
  {| columns := ["age"; "a"; "b"];
     rows := [ {[ "age" := Num (Qc_of_Z 10); "a" := Num 0; "b" := Num 0 ]};
               {[ "age" := Num (Qc_of_Z 20); "a" := Num 1; "b" := Num (Qc_of_Z 2) ]} ] |}.

(** A column [f] with a null cell, beside 0 and 1. *)
Definition holes : DataFrame :=
  {| columns := ["f"; "y"];
     rows := [ {[ "f" := Num 0; "y" := Num 0 ]};
               {[ "f" := NaN; "y" := Num 1 ]};
               {[ "f" := Num 1; "y" := Num 1 ]} ] |}.


(** The frame [ages] after the grid builder [prepare] and the count
    marker. *)
Definition binned : DataFrame :=
  setitem_scalar (prepare (PStr "age") numeric ages cfg None).2
    "fake_count" (Num 1).


Definition df : loc := 1%positive.

Definition world (d : DataFrame) : state :=
  {| heap := {[ df := d ]}; canvas := [] |}.

Definition three_classes : gmap string nat :=
  {[ "class_0" := 0%nat; "class_1" := 1%nat; "class_2" := 2%nat ]}.

Definition run_target_plot (d : DataFrame) (feature target : colspec)
    (percentile_range : option (list cell)) : result pyret * state :=
  target_plot prepare render df feature "feature" target cfg percentile_range
    None None () (world d).

Definition run_actual_plot (out : isolate_out nat) (multi_flag : bool)
    (which_class : option Z) : result pyret * state :=
  actual_plot title panel out "feature" None () multi_flag which_class None
    {| heap := ∅; canvas := [] |}.
End Example.

(** * Properties *)

(** ** Sorting and distinct values *)

Lemma elem_of_omap_cell_num (xs : list cell) (q : Qc) :
  q ∈ omap cell_num xs ↔ Num q ∈ xs.
Proof.
  rewrite list_elem_of_omap. split.
  - intros ([|q'] & Hin & Heq); simpl in Heq; [done|]. by simplify_eq.
  - intros Hin. by exists (Num q).
Qed.

Lemma elem_of_distinct_ascending (xs : list cell) (q : Qc) :
  q ∈ distinct_ascending xs ↔ Num q ∈ xs.
Proof.
  unfold distinct_ascending.
  rewrite merge_sort_Permutation, elem_of_remove_dups.
  apply elem_of_omap_cell_num.
Qed.

Lemma NoDup_distinct_ascending (xs : list cell) : NoDup (distinct_ascending xs).
Proof.
  unfold distinct_ascending.
  rewrite merge_sort_Permutation. apply NoDup_remove_dups.
Qed.

Lemma distinct_ascending_sorted (xs : list cell) :
  StronglySorted Qcle (distinct_ascending xs).
Proof. apply (StronglySorted_merge_sort _). Qed.



(** [sorted] leaves an ascending list of numbers, followed by at most a
    null value, as it is. *)
Lemma py_sorted_ascending (ks : list Qc) (t : list cell) :
  StronglySorted Qcle ks → t = [] ∨ t = [NaN] →
  py_sorted ((Num <$> ks) ++ t) = (Num <$> ks) ++ t.
Proof.
  intros Hs Ht. induction Hs as [|a ks Hs IH Hall].
  - by destruct Ht as [-> | ->].
  - unfold py_sorted in *. cbn [fmap list_fmap app foldr]. rewrite IH.
    destruct ks as [|b ks]; cbn.
    + by destruct Ht as [-> | ->].
    + apply Forall_cons in Hall as [Hab _].
      rewrite bool_decide_eq_false_2; [done|]. by apply Qcle_not_lt.
Qed.

Lemma py_sorted_np_unique (l : list cell) : py_sorted (np_unique l) = np_unique l.
Proof.
  unfold np_unique. apply py_sorted_ascending.
  - apply distinct_ascending_sorted.
  - case_bool_decide; auto.
Qed.

Lemma cell_eq_true (a b : cell) : cell_eq a b = true → a = b.
Proof.
  destruct a as [|x], b as [|y]; simpl; try done.
  intros ->%bool_decide_eq_true. done.
Qed.

Lemma py_list_eq_true (l1 l2 : list cell) : py_list_eq l1 l2 = true → l1 = l2.
Proof.
  revert l2. induction l1 as [|a l1 IH]; intros [|b l2]; simpl; try done.
  intros [Hab Hl]%andb_true_iff. f_equal; [by apply cell_eq_true | by apply IH].
Qed.

Lemma Qc_0_neq_1 : (0 : Qc) ≠ 1.
Proof. intros H. by apply (f_equal (λ q : Qc, bool_decide (q = 0))) in H. Qed.

(** The two-element list [0; 1] is what a column has as distinct
    ascending numbers exactly when its numbers are 0 and 1. *)
Lemma distinct_ascending_01 (xs : list cell) :
  distinct_ascending xs = [0; 1] ↔ (∀ q, Num q ∈ xs ↔ q = 0 ∨ q = 1).
Proof.
  split.
  - intros Heq q. rewrite <-elem_of_distinct_ascending, Heq.
    rewrite !elem_of_cons, elem_of_nil. tauto.
  - intros Hxs.
    apply (Sorted_unique Qcle).
    + apply StronglySorted_Sorted, distinct_ascending_sorted.
    + repeat constructor. by vm_compute.
    + apply NoDup_Permutation.
      * apply NoDup_distinct_ascending.
      * apply NoDup_cons. split; [|apply NoDup_singleton].
        rewrite list_elem_of_singleton. apply Qc_0_neq_1.
      * intros q. rewrite elem_of_distinct_ascending, Hxs.
        rewrite !elem_of_cons, elem_of_nil. tauto.
Qed.

(** The test of the source holds exactly of the columns whose set of
    distinct values is {0, 1}. *)
Lemma unique_is_01_spec (col : list cell) :
  unique_is_01 col = true ↔ values_01 col.
Proof.
  unfold unique_is_01, values_01. rewrite py_sorted_np_unique. split.
  - intros Heq%py_list_eq_true. unfold np_unique in Heq.
    assert ((NaN ∉ col) ∧ distinct_ascending col = [0; 1]) as [Hnan Hks].
    { case_bool_decide as Hnan.
      - destruct (distinct_ascending col) as [|a [|b [|c ks]]]; simpl in Heq; by simplify_eq.
      - rewrite app_nil_r in Heq. split; [done|].
        destruct (distinct_ascending col) as [|a [|b [|c ks]]]; simpl in Heq; by simplify_eq. }
    intros [|q].
    + split; [done|]. by intros [?|?].
    + rewrite (proj1 (distinct_ascending_01 col) Hks q).
      split; intros [?|?]; simplify_eq; auto.
  - intros Hv.
    assert (NaN ∉ col) as Hnan.
    { intros Hin. apply Hv in Hin as [?|?]; done. }
    assert (distinct_ascending col = [0; 1]) as Hks.
    { apply distinct_ascending_01. intros q. rewrite Hv.
      split; intros [?|?]; simplify_eq; auto. }
    unfold np_unique. rewrite Hks, bool_decide_eq_false_2 by done.
    by vm_compute.
Qed.

Lemma unique_is_01_false (col : list cell) :
  unique_is_01 col = false ↔ ¬ values_01 col.
Proof.
  rewrite <-unique_is_01_spec. by destruct (unique_is_01 col).
Qed.

(** ** Validation *)

Lemma getitem_Ok (d : DataFrame) (c : string) :
  c ∈ columns d → getitem d c = Ok (column d c).
Proof. intros Hc. unfold getitem. by rewrite decide_True. Qed.

Lemma set_lt_spec (a b : list string) :
  set_lt a b = true ↔ (∀ c, c ∈ a → c ∈ b) ∧ ∃ c, c ∈ b ∧ c ∉ a.
Proof.
  unfold set_lt. rewrite bool_decide_eq_true. split.
  - intros [Hsub Hne]. split; [set_solver|].
    destruct (decide (Forall (λ c, c ∈ a) b)) as [Hall|Hex].
    + destruct Hne. rewrite Forall_forall in Hall. set_solver.
    + apply not_Forall_Exists in Hex; [|apply _].
      apply Exists_exists in Hex as (c & ? & ?). by exists c.
  - intros [Hsub (c & Hc & Hnc)]. split; [set_solver|].
    intros Hba. apply Hnc. set_solver.
Qed.

(** A listed feature is accepted exactly when it has two elements or
    more and its names form a proper subset of the column names. *)
Lemma check_feature_list (d : DataFrame) (l : list string) :
  check_feature d (PList l) = Ok onehot ↔
  (2 ≤ length l)%nat ∧ set_lt l (columns d) = true.
Proof.
  simpl. case_decide; [split; [done|lia]|].
  destruct (set_lt l (columns d)); simpl; split; try done; try (intros [? ?]; done).
  intros _. split; [lia|done].
Qed.

Lemma check_percentile_range_class (pr : option (list cell)) (e : exn) :
  check_percentile_range pr = Raise e → taxonomy e = Some InvalidRange.
Proof.
  destruct pr as [pr|]; [|done]. unfold check_percentile_range.
  case_decide as Hlen; [by intros [= <-]|].
  destruct pr as [|a pr]; [done|]. cbn [np_max np_min mbind result_bind].
  destruct (cell_lt (Num (Qc_of_Z 100)) (foldr cell_max a pr)),
    (cell_lt (foldr cell_min a pr) (Num 0)); intros Heq; by simplify_eq.
Qed.

(** The loop over the listed targets stops at the first column whose
    values are not 0 and 1. *)
Lemma check_onehot_targets_Ok (d : DataFrame) (ts : list string) :
  (∀ c, c ∈ ts → c ∈ columns d) →
  check_onehot_targets d ts = Ok () ↔ ∀ c, c ∈ ts → values_01 (column d c).
Proof.
  induction ts as [|t ts IH]; intros Hex; simpl.
  - split; [|done]. intros _ c Hc. by apply elem_of_nil in Hc.
  - rewrite getitem_Ok by (apply Hex; left). simpl.
    destruct (unique_is_01 (column d t)) eqn:Ht; simpl.
    + rewrite IH by (intros c Hc; apply Hex; by right).
      apply unique_is_01_spec in Ht. split.
      * intros Hts c [->|Hc]%elem_of_cons; auto.
      * intros Hts c Hc. apply Hts. by right.
    + apply unique_is_01_false in Ht. split; [done|].
      intros Hts. destruct Ht. apply Hts. left.
Qed.

Lemma check_onehot_targets_Raise (d : DataFrame) (ts : list string) (e : exn) :
  (∀ c, c ∈ ts → c ∈ columns d) →
  check_onehot_targets d ts = Raise e →
  ∃ c, c ∈ ts ∧ ¬ values_01 (column d c) ∧ e = ValueError (TargetNotOneHot c).
Proof.
  induction ts as [|t ts IH]; intros Hex; simpl; [done|].
  rewrite getitem_Ok by (apply Hex; left). simpl.
  destruct (unique_is_01 (column d t)) eqn:Ht; simpl.
  - intros (c & ? & ? & ?)%IH; [|intros c Hc; apply Hex; by right].
    exists c. split; [by right|done].
  - intros [= <-]. exists t. split; [left|]. split; [|done].
    by apply unique_is_01_false.
Qed.

(** ** Group-by and sorting *)

Global Instance cell_le_trans : Transitive cell_le.
Proof.
  intros [|x] [|y] [|z]; simpl; try done. apply Qcle_trans.
Qed.

Global Instance cell_le_total : Total cell_le.
Proof.
  intros [|x] [|y]; simpl; auto. apply (total Qcle).
Qed.

Global Instance row_le_trans key : Transitive (row_le key).
Proof. intros r1 r2 r3. unfold row_le. apply cell_le_trans. Qed.

Global Instance row_le_total key : Total (row_le key).
Proof. intros r1 r2. unfold row_le. apply cell_le_total. Qed.

(** Sorting rows that are already in ascending order of distinct keys
    changes nothing. *)
Lemma merge_sort_rows_ascending (key : string) (f : Qc → gmap string cell) (ks : list Qc) :
  (∀ k, at_col key (f k) = Num k) →
  StronglySorted Qcle ks →
  merge_sort (row_le key) (f <$> ks) = f <$> ks.
Proof.
  intros Hkey Hs.
  apply (Sorted_unique_strong (row_le key)).
  - intros r1 r2 Hr1 Hr2. rewrite merge_sort_Permutation in Hr1.
    apply list_elem_of_fmap in Hr1 as (k1 & -> & _).
    apply list_elem_of_fmap in Hr2 as (k2 & -> & _).
    unfold row_le. rewrite !Hkey. simpl. intros H12 H21.
    f_equal. by apply Qcle_antisym.
  - apply (Sorted_merge_sort _).
  - apply StronglySorted_Sorted.
    apply (StronglySorted_fmap _ Qcle); [|done].
    intros k1 k2 Hle. unfold row_le. by rewrite !Hkey.
  - apply merge_sort_Permutation.
Qed.

(** The row that [groupby_agg] makes for key [k]. *)
Lemma at_col_key_row (key col : string) (k : Qc) (v : cell) :
  at_col key (<[key := Num k]> ({[ col := v ]} : gmap string cell)) = Num k.
Proof. unfold at_col. by rewrite lookup_insert_eq. Qed.

Lemma at_col_agg_row (key col : string) (k : Qc) (v : cell) :
  key ≠ col →
  at_col col (<[key := Num k]> ({[ col := v ]} : gmap string cell)) = v.
Proof.
  intros Hne. unfold at_col.
  by rewrite lookup_insert_ne, lookup_singleton_eq.
Qed.

(** What an aggregated, sorted table is made of. *)
Lemma grouped_Ok (dx g : DataFrame) (col : string) (f : aggfun) :
  grouped dx col f = Ok g →
  columns g = "x" :: filter (λ c, c = col ∧ c ≠ "x") (columns dx) ∧
  rows g = (λ k, <["x" := Num k]>
                   {[ col := aggregate f (at_col col <$> group_rows dx "x" k) ]})
           <$> group_keys (column dx "x").
Proof.
  unfold grouped, groupby_agg.
  destruct (decide ("x" ∉ columns dx)); [done|].
  destruct (decide (col ∉ columns dx)); [done|].
  cbn [mbind result_bind]. unfold sort_values. cbn [columns rows].
  rewrite decide_False by (intros Hnot; apply Hnot; left).
  intros [= <-]. cbn [columns rows]. split; [done|].
  apply merge_sort_rows_ascending.
  - intros k. apply at_col_key_row.
  - apply distinct_ascending_sorted.
Qed.



Lemma grouped_Raise (dx : DataFrame) (col : string) (f : aggfun) (e : exn) :
  grouped dx col f = Raise e → taxonomy e = None.
Proof.
  unfold grouped, groupby_agg.
  destruct (decide ("x" ∉ columns dx)); [by intros [= <-]|].
  destruct (decide (col ∉ columns dx)); [by intros [= <-]|].
  cbn [mbind result_bind]. unfold sort_values. cbn [columns rows].
  rewrite decide_False by (intros Hnot; apply Hnot; left).
  done.
Qed.



Lemma target_lines_loop_Raise (dx : DataFrame) (ts : list string) (e : exn) :
  target_lines_loop dx ts = Raise e → taxonomy e = None.
Proof.
  induction ts as [|t ts IH]; simpl; [done|].
  destruct (grouped dx t mean) as [g|] eqn:Hg; simpl.
  - destruct (target_lines_loop dx ts) as [rest|]; simpl; [done|].
    intros [= <-]. by apply IH.
  - intros [= <-]. by eapply grouped_Raise.
Qed.


Lemma make_target_lines_Raise dx target tt (e : exn) :
  make_target_lines dx target tt = Raise e → taxonomy e = None.
Proof.
  unfold make_target_lines.
  destruct tt, target as [t|l|]; try (by intros [= <-]);
    try (destruct (grouped dx t mean) as [g|] eqn:Hg; [done|]; simpl;
         intros [= <-]; by eapply grouped_Raise).
  apply target_lines_loop_Raise.
Qed.

Lemma aggregator_Raise dx target tt (e : exn) :
  aggregator dx target tt = Raise e → taxonomy e = None.
Proof.
  unfold aggregator.
  destruct (grouped dx "fake_count" count) as [bar|] eqn:Hbar; simpl.
  - destruct (make_target_lines dx target tt) as [lines|] eqn:Hl; simpl; [done|].
    intros [= <-]. by eapply make_target_lines_Raise.
  - intros [= <-]. by eapply grouped_Raise.
Qed.


(** ** Counting the rows of the groups *)










(** ** The class selector of [actual_plot] *)

Lemma class_key_inj (a b : Z) : class_key a = class_key b → a = b.
Proof.
  unfold class_key. cbn. intros [= Heq].
  change (pretty a = pretty b) in Heq. by apply (inj pretty) in Heq.
Qed.

Lemma class_dict_wf_negative {obj} (d : gmap string obj) (wc : Z) :
  class_dict_wf d → (wc < 0)%Z → d !! class_key wc = None.
Proof.
  intros Hwf Hneg. destruct (d !! class_key wc) eqn:Hlk; [|done].
  destruct (Hwf (class_key wc)) as [i Hi]; [by rewrite Hlk|].
  apply class_key_inj in Hi. lia.
Qed.

(** ** Feature types and listed names *)

(** C1 (as amended): for a string feature that names a column, the
    inferred type is [binary] when the set of distinct values of the
    column is exactly {0, 1}, and [numeric] otherwise. *)
Theorem C1_feature_type_inference (d : DataFrame) (f : string) :
  f ∈ columns d →
  (values_01 (column d f) → check_feature d (PStr f) = Ok binary) ∧
  (¬ values_01 (column d f) → check_feature d (PStr f) = Ok numeric).
Proof.
  intros Hf. simpl. rewrite decide_False by (by intros ?).
  rewrite getitem_Ok by done. simpl. split.
  - intros Hv%unique_is_01_spec. by rewrite Hv.
  - intros Hv%unique_is_01_false. by rewrite Hv.
Qed.

(** C4: the frame has exactly the columns [a] and [b]; the list of both,
    every element of which names a column, is refused as a feature and as
    a target, with the error for a name that does not exist. *)
Theorem C4_full_column_set_rejected :
  Forall (λ c, c ∈ columns Example.onehots) ["a"; "b"] ∧
  check_feature Example.onehots (PList ["a"; "b"])
    = Raise (ValueError (FeatureNotExist (PList ["a"; "b"]))) ∧
  check_target Example.onehots (PList ["a"; "b"])
    = Raise (ValueError (TargetNotExist (PList ["a"; "b"]))) ∧
  (Example.run_target_plot Example.onehots (PList ["a"; "b"]) (PStr "a") None).1
    = Raise (ValueError (FeatureNotExist (PList ["a"; "b"]))) ∧
  taxonomy (ValueError (FeatureNotExist (PList ["a"; "b"]))) = Some InvalidFeature.
Proof.
  split.
  - repeat constructor.
  - repeat split; by vm_compute.
Qed.

(** ** Running the entry points *)

(** A new object never takes the place of one that exists. *)
Lemma lookup_insert_fresh (m m' : gmap loc DataFrame) (l : loc) (v : DataFrame) :
  l ∈ dom m → <[fresh (dom m) := v]> m' !! l = m' !! l.
Proof.
  intros Hl. apply lookup_insert_ne. intros <-. by apply (is_fresh (dom m)).
Qed.

(** One step of the run of a monadic program: a read of a frame just
    written, or a case distinction on the outcome of the next call. *)
Ltac exec_step :=
  match goal with
  | |- context [<[?l := ?v]> ?m !! ?l] => rewrite (lookup_insert_eq m l v)
  | |- context [match ?x with _ => _ end] =>
      lazymatch x with
      | context [match _ with _ => _ end] => fail
      | _ => destruct x eqn:?
      end
  end.

Ltac exec :=
  unfold target_plot, call_prepare_data_x, actual_plot,
    plt_figure, plt_subplot, mbind, M_bind, mret, M_ret,
    load, store, alloc, lift, draw;
  repeat (cbn [heap canvas fst snd from_collaborator]; exec_step);
  cbn [heap canvas fst snd from_collaborator].

Section target_plot_properties.
Context {params : Type}.
Variable _prepare_data_x :
  colspec → feature_type → DataFrame → grid_config → option (list cell) →
  outcome (frame_ref * list string * option (list string)) * DataFrame.
Variable _target_plot :
  target_plot_args params → list draw_event → outcome Axes * list draw_event.

(** The three validation blocks run in the order feature, percentile
    range, target; the first one that raises ends the call, with the
    state as it was. *)
Lemma target_plot_feature_error σ df d feature fname target cfg pr figsize ax pp e :
  heap σ !! df = Some d →
  check_feature d feature = Raise e →
  target_plot _prepare_data_x _target_plot df feature fname target cfg pr figsize ax pp σ = (Raise e, σ).
Proof.
  intros Hd He. unfold target_plot, mbind, M_bind, load, lift.
  by rewrite Hd, He.
Qed.

Lemma target_plot_range_error σ df d feature fname target cfg pr figsize ax pp ft e :
  heap σ !! df = Some d →
  check_feature d feature = Ok ft →
  check_percentile_range pr = Raise e →
  target_plot _prepare_data_x _target_plot df feature fname target cfg pr figsize ax pp σ = (Raise e, σ).
Proof.
  intros Hd Hf He. unfold target_plot, mbind, M_bind, load, lift.
  by rewrite Hd, Hf, He.
Qed.

Lemma target_plot_target_error σ df d feature fname target cfg pr figsize ax pp ft e :
  heap σ !! df = Some d →
  check_feature d feature = Ok ft →
  check_percentile_range pr = Ok () →
  check_target d target = Raise e →
  target_plot _prepare_data_x _target_plot df feature fname target cfg pr figsize ax pp σ = (Raise e, σ).
Proof.
  intros Hd Hf Hr He. unfold target_plot, mbind, M_bind, load, lift.
  by rewrite Hd, Hf, Hr, He.
Qed.
(** The frames that exist when [target_plot] is called are the same
    afterwards, however the call ends. *)
Lemma target_plot_heap σ df feature fname target cfg pr figsize ax pp :
  heap (target_plot _prepare_data_x _target_plot df feature fname target cfg pr
          figsize ax pp σ).2 !! df = heap σ !! df.
Proof.
  exec; try done.
  all: assert (df ∈ dom (heap σ)) as Hdf by (apply elem_of_dom; eauto).
  all: repeat (rewrite lookup_insert_fresh
                 by (rewrite ?dom_insert_L; set_solver)).
  all: done.
Qed.

(** What a successful run of [target_plot] went through. *)
Lemma target_plot_Ok_inv σ σ' df feature fname target cfg pr figsize ax pp r :
  target_plot _prepare_data_x _target_plot df feature fname target cfg pr
    figsize ax pp σ = (Ok r, σ') →
  ∃ dx args axes,
    r = PyAxes axes ∧ rendered_from _target_plot dx target args axes σ'.
Proof.
  exec; intros [= <- <-].
  all: repeat match goal with
       | o : outcome _ |- _ => destruct o; simplify_eq/=
       end.
  all: match goal with
       | Hr : _target_plot ?args ?c = _, Hg : aggregator ?dx _ ?tt = _ |- _ =>
           exists dx, args; eexists; split; [done|];
           split; [by eexists|split; [|split]];
           [eexists; apply lookup_insert_eq | by exists tt | by exists c]
       end.
Qed.


(** C3 (as amended): [target_plot] validates the feature, then the
    percentile range, then the target.  So when the feature is valid and
    the percentile range is not, the call fails with that range error (of
    class InvalidRange), whatever the target is. *)
Theorem C3_validation_order σ df d feature fname target cfg pr figsize ax pp :
  heap σ !! df = Some d →
  (∀ e, check_feature d feature = Raise e →
     target_plot _prepare_data_x _target_plot df feature fname target cfg pr
       figsize ax pp σ = (Raise e, σ)) ∧
  (∀ ft e, check_feature d feature = Ok ft →
     check_percentile_range pr = Raise e →
     target_plot _prepare_data_x _target_plot df feature fname target cfg pr
       figsize ax pp σ = (Raise e, σ) ∧ taxonomy e = Some InvalidRange) ∧
  (∀ ft e, check_feature d feature = Ok ft →
     check_percentile_range pr = Ok () →
     check_target d target = Raise e →
     target_plot _prepare_data_x _target_plot df feature fname target cfg pr
       figsize ax pp σ = (Raise e, σ)).
Proof.
  intros Hd. split; [|split].
  - intros e He. by eapply target_plot_feature_error.
  - intros ft e Hf He. split.
    + by eapply target_plot_range_error.
    + by eapply check_percentile_range_class.
  - intros ft e Hf Hr He. by eapply target_plot_target_error.
Qed.




(** C9: whatever the outcome of a [target_plot] call, the frame that
    [df] refers to is afterwards what it was before. *)
Theorem C9_dataset_unchanged σ df feature fname target cfg pr figsize ax pp :
  heap (target_plot _prepare_data_x _target_plot df feature fname target cfg pr
          figsize ax pp σ).2 !! df = heap σ !! df.
Proof. apply target_plot_heap. Qed.

End target_plot_properties.

Section actual_plot_properties.
Context {params pdp_isolate_obj : Type}.
Variable _actual_plot_title :
  string → Axes → option (Qc * Qc) → bool → option Z → params →
  list draw_event → outcome unit * list draw_event.
Variable _actual_plot :
  pdp_isolate_obj → string → Qc → params → option SubplotSpec →
  list draw_event → outcome unit * list draw_event.

(** [actual_plot] has no value to return. *)
Lemma actual_plot_Ok_inv σ σ' out fname figsize pp multi_flag which_class ncols r :
  actual_plot _actual_plot_title _actual_plot out fname figsize pp multi_flag
    which_class ncols σ = (Ok r, σ') →
  r = PyNone.
Proof. exec; by intros [= <- <-]. Qed.
(** C8: with [multi_flag] set and an integer [which_class] that is not
    below the number of classes of the mapping, [actual_plot] fails with
    an InvalidClassSelector error and nothing has been drawn. *)
Theorem C8_class_selector_out_of_range σ (d : gmap string pdp_isolate_obj)
    fname figsize pp (wc : Z) ncols :
  (Z.of_nat (size d) ≤ wc)%Z →
  actual_plot _actual_plot_title _actual_plot (ClassDict d) fname figsize pp
    true (Some wc) ncols σ = (Raise (ValueError ClassNotExist), σ) ∧
  taxonomy (ValueError ClassNotExist) = Some InvalidClassSelector.
Proof.
  intros Hwc. split; [|done].
  unfold actual_plot, check_which_class, mbind, M_bind, lift. simpl.
  by rewrite decide_True by lia.
Qed.

(** C10: with [multi_flag] set and a negative [which_class], the check
    of the class selector lets the call through, and the call fails at
    the lookup of the class entry with a [KeyError], which is in no class
    of the taxonomy; the title figure and its axes have been created by
    then. *)
Theorem C10_negative_class_selector σ (d : gmap string pdp_isolate_obj)
    fname figsize pp (wc : Z) ncols :
  (wc < 0)%Z →
  class_dict_wf d →
  check_which_class (ClassDict d) true (Some wc) = Ok () ∧
  ∃ σ',
    actual_plot _actual_plot_title _actual_plot (ClassDict d) fname figsize pp
      true (Some wc) ncols σ = (Raise (KeyError (class_key wc)), σ') ∧
    taxonomy (KeyError (class_key wc)) = None ∧
    canvas σ' = (canvas σ ++ [Figure (figure_width figsize)
                                     (figure_width figsize / Q2Qc (67 # 10))])
                ++ [Subplot 111].
Proof.
  intros Hneg Hwf.
  assert (check_which_class (ClassDict d) true (Some wc) = Ok ()) as Hcheck.
  { unfold check_which_class. simpl. rewrite decide_False by lia. done. }
  split; [done|]. eexists. split; [|split; [done|]].
  - unfold actual_plot, plt_figure, plt_subplot, draw, mbind, M_bind, lift.
    rewrite Hcheck. cbn. by rewrite (class_dict_wf_negative d wc).
  - done.
Qed.
End actual_plot_properties.

(** C2 (as amended): a successful [target_plot] call returns the axes
    handle that the renderer returned; a successful [actual_plot] call
    returns [None]. *)
Theorem C2_return_values {params pdp_isolate_obj : Type}
    (_prepare_data_x :
       colspec → feature_type → DataFrame → grid_config → option (list cell) →
       outcome (frame_ref * list string * option (list string)) * DataFrame)
    (_target_plot :
       target_plot_args params → list draw_event → outcome Axes * list draw_event)
    (_actual_plot_title :
       string → Axes → option (Qc * Qc) → bool → option Z → params →
       list draw_event → outcome unit * list draw_event)
    (_actual_plot :
       pdp_isolate_obj → string → Qc → params → option SubplotSpec →
       list draw_event → outcome unit * list draw_event) :
  (∀ σ σ' df feature fname target cfg pr figsize ax pp r,
     target_plot _prepare_data_x _target_plot df feature fname target cfg pr
       figsize ax pp σ = (Ok r, σ') →
     ∃ args c axes,
       _target_plot args c = (Returned axes, canvas σ') ∧ r = PyAxes axes) ∧
  (∀ σ σ' out fname figsize pp multi_flag which_class ncols r,
     actual_plot _actual_plot_title _actual_plot out fname figsize pp multi_flag
       which_class ncols σ = (Ok r, σ') →
     r = PyNone).
Proof.
  split.
  - intros * Hrun.
    apply target_plot_Ok_inv in Hrun as (dx & args & axes & -> & Hr).
    destruct Hr as (_ & _ & _ & c & Hc). by exists args, c, axes.
  - intros * Hrun. by eapply actual_plot_Ok_inv.
Qed.

(** ** The claims at concrete inputs *)

Lemma three_classes_wf : class_dict_wf Example.three_classes.
Proof.
  intros k Hk%elem_of_dom. unfold Example.three_classes in Hk.
  rewrite !dom_insert_L, dom_singleton_L in Hk.
  rewrite !elem_of_union, !elem_of_singleton in Hk.
  destruct Hk as [->|[->| ->]]; [by exists 0%nat|by exists 1%nat|by exists 2%nat].
Qed.

Lemma C1_feature_type_inference_witness :
  "a" ∈ columns Example.onehots ∧
  values_01 (column Example.onehots "a") ∧
  check_feature Example.onehots (PStr "a") = Ok binary.
Proof.
  assert ("a" ∈ columns Example.onehots) as Hc by (cbn; left).
  assert (values_01 (column Example.onehots "a")) as Hv
    by (apply unique_is_01_spec; vm_compute; reflexivity).
  split; [exact Hc|]. split; [exact Hv|].
  exact (proj1 (C1_feature_type_inference _ _ Hc) Hv).
Defined.

(** The column [flag] holds 0 only: its set of distinct values is a
    non-empty subset of {0, 1}, and the inferred type is [numeric], not
    [binary]. *)
Lemma C1_counterexample :
  "flag" ∈ columns Example.zeros ∧
  values_within_01 (column Example.zeros "flag") ∧
  check_feature Example.zeros (PStr "flag") = Ok numeric ∧
  check_feature Example.zeros (PStr "flag") ≠ Ok binary.
Proof.
  split; [cbn; left|]. split.
  - assert (column Example.zeros "flag" = [Num 0; Num 0]) as ->
      by (vm_compute; reflexivity).
    split; [done|]. intros v Hv.
    apply elem_of_cons in Hv as [->|Hv]; [by left|].
    apply list_elem_of_singleton in Hv as ->. by left.
  - split; by vm_compute.
Qed.

Lemma C2_return_values_witness :
  let run1 := Example.run_target_plot Example.ages (PStr "age") (PStr "y") None in
  let run2 := Example.run_actual_plot (Single 0%nat) false None in
  run1 = (Ok (PyAxes (AxesId 0)), run1.2) ∧
  (∃ args c axes,
     Example.render args c = (Returned axes, canvas run1.2) ∧
     PyAxes (AxesId 0) = PyAxes axes) ∧
  run2 = (Ok PyNone, run2.2) ∧
  PyNone = PyNone.
Proof.
  intros run1 run2.
  assert (run1 = (Ok (PyAxes (AxesId 0)), run1.2)) as H1
    by (vm_compute; reflexivity).
  assert (run2 = (Ok PyNone, run2.2)) as H2 by (vm_compute; reflexivity).
  split; [exact H1|]. split.
  - exact (proj1 (C2_return_values Example.prepare Example.render
                    Example.title Example.panel) _ _ _ _ _ _ _ _ _ _ _ _ H1).
  - split; [exact H2|].
    exact (proj2 (C2_return_values Example.prepare Example.render
                    Example.title Example.panel)
             {| heap := ∅; canvas := [] |} run2.2 (Single 0%nat) "feature"
             None () false None None PyNone H2).
Defined.

(** A call of [actual_plot] that succeeds and returns [None]. *)
Lemma C2_counterexample :
  (Example.run_actual_plot (Single 0%nat) false None).1 = Ok PyNone ∧
  ∀ a, (Example.run_actual_plot (Single 0%nat) false None).1 ≠ Ok (PyAxes a).
Proof. split; [by vm_compute|]. intros a. by vm_compute. Qed.

Lemma C3_validation_order_witness :
  let pr := Some [Num (Qc_of_Z 10); Num (Qc_of_Z 105)] in
  heap (Example.world Example.ages) !! Example.df = Some Example.ages ∧
  check_feature Example.ages (PStr "age") = Ok numeric ∧
  check_percentile_range pr = Raise (ValueError RangeBounds) ∧
  Example.run_target_plot Example.ages (PStr "age") (PStr "nope") pr
    = (Raise (ValueError RangeBounds), Example.world Example.ages) ∧
  taxonomy (ValueError RangeBounds) = Some InvalidRange.
Proof.
  intros pr.
  assert (heap (Example.world Example.ages) !! Example.df = Some Example.ages)
    as Hd by (vm_compute; reflexivity).
  assert (check_feature Example.ages (PStr "age") = Ok numeric) as Hf
    by (vm_compute; reflexivity).
  assert (check_percentile_range pr = Raise (ValueError RangeBounds)) as Hr
    by (vm_compute; reflexivity).
  split; [exact Hd|]. split; [exact Hf|]. split; [exact Hr|].
  exact (proj1 (proj2 (C3_validation_order Example.prepare Example.render
                         _ _ _ _ "feature" (PStr "nope") Example.cfg pr None None ()
                         Hd)) _ _ Hf Hr).
Defined.

(** The feature is valid, the target names no column and the percentile
    range goes beyond 100: the call fails with the range error, not with
    the target error. *)
Lemma C3_counterexample :
  check_feature Example.ages (PStr "age") = Ok numeric ∧
  check_target Example.ages (PStr "nope")
    = Raise (ValueError (TargetNotExist (PStr "nope"))) ∧
  taxonomy (ValueError (TargetNotExist (PStr "nope"))) = Some InvalidTarget ∧
  check_percentile_range (Some [Num (Qc_of_Z 10); Num (Qc_of_Z 105)])
    = Raise (ValueError RangeBounds) ∧
  (Example.run_target_plot Example.ages (PStr "age") (PStr "nope")
     (Some [Num (Qc_of_Z 10); Num (Qc_of_Z 105)])).1 = Raise (ValueError RangeBounds) ∧
  taxonomy (ValueError RangeBounds) ≠ Some InvalidTarget.
Proof. repeat split; by vm_compute. Qed.






Lemma C8_class_selector_out_of_range_witness :
  (Z.of_nat (size Example.three_classes) ≤ 5)%Z ∧
  Example.run_actual_plot (ClassDict Example.three_classes) true (Some 5%Z)
    = (Raise (ValueError ClassNotExist), {| heap := ∅; canvas := [] |}) ∧
  taxonomy (ValueError ClassNotExist) = Some InvalidClassSelector.
Proof.
  assert (Z.of_nat (size Example.three_classes) ≤ 5)%Z as Hwc
    by (vm_compute; discriminate).
  split; [exact Hwc|].
  exact (C8_class_selector_out_of_range Example.title Example.panel
           {| heap := ∅; canvas := [] |} Example.three_classes "feature" None ()
           5%Z None Hwc).
Defined.

Lemma C10_negative_class_selector_witness :
  (-1 < 0)%Z ∧
  class_dict_wf Example.three_classes ∧
  check_which_class (ClassDict Example.three_classes) true (Some (-1)%Z) = Ok () ∧
  ∃ σ',
    Example.run_actual_plot (ClassDict Example.three_classes) true (Some (-1)%Z)
      = (Raise (KeyError (class_key (-1))), σ') ∧
    taxonomy (KeyError (class_key (-1))) = None ∧
    canvas σ' = ([] ++ [Figure (figure_width None)
                               (figure_width None / Q2Qc (67 # 10))])
                ++ [Subplot 111].
Proof.
  assert (-1 < 0)%Z as Hneg by lia.
  split; [exact Hneg|]. split; [exact three_classes_wf|].
  exact (C10_negative_class_selector Example.title Example.panel
           {| heap := ∅; canvas := [] |} Example.three_classes "feature" None ()
           (-1)%Z None Hneg three_classes_wf).
Defined.


(** * Further properties of the two entry points *)

(** ** The validation blocks of [target_plot] *)

Lemma Qc_max_le (x y z : Qc) : Qc_max x y ≤ z ↔ x ≤ z ∧ y ≤ z.
Proof.
  unfold Qc_max. case_decide as Hxy; split.
  - intros Hy. split; [by etrans|done].
  - by intros [_ ?].
  - intros Hx. split; [done|].
    apply Qcnot_le_lt, Qclt_le_weak in Hxy. by etrans.
  - by intros [? _].
Qed.

Lemma Qc_min_ge (x y z : Qc) : z ≤ Qc_min x y ↔ z ≤ x ∧ z ≤ y.
Proof.
  unfold Qc_min. case_decide as Hxy; split.
  - intros Hx. split; [done|by etrans].
  - by intros [? _].
  - intros Hy. split; [|done].
    apply Qcnot_le_lt, Qclt_le_weak in Hxy. by etrans.
  - by intros [_ ?].
Qed.

(** What the percentile block does with a pair. *)
Lemma check_percentile_range_pair (a b : cell) :
  (percent_pair a b ∧ check_percentile_range (Some [a; b]) = Ok ()) ∨
  (¬ percent_pair a b ∧
   check_percentile_range (Some [a; b]) = Raise (ValueError RangeBounds)).
Proof.
  destruct a as [|x], b as [|y]; try (left; split; [exact I|reflexivity]).
  unfold check_percentile_range, percent_pair, in_percent.
  cbn [length np_max np_min foldr cell_max cell_min cell_lt mbind result_bind].
  rewrite decide_False by (by intros ?).
  assert (¬ Qc_of_Z 100 < Qc_max y x ↔ x ≤ Qc_of_Z 100 ∧ y ≤ Qc_of_Z 100) as Hmax.
  { rewrite <-Qcle_ngt, Qc_max_le. tauto. }
  assert (¬ Qc_min y x < 0 ↔ 0 ≤ x ∧ 0 ≤ y) as Hmin.
  { rewrite <-Qcle_ngt, Qc_min_ge. tauto. }
  destruct (bool_decide_reflect (Qc_of_Z 100 < Qc_max y x)) as [Hhi|Hhi].
  { right. split; [tauto|done]. }
  destruct (bool_decide_reflect (Qc_min y x < 0)) as [Hlo|Hlo].
  { right. split; [tauto|done]. }
  left. split; [tauto|done].
Qed.

(** X1: the percentile range is accepted exactly when it is absent or is
    a pair that is either two numbers between 0 and 100 or holds a null
    (the comparisons of the bound test are false on a null maximum or
    minimum); a sequence of another length is refused for its length,
    whatever it holds, and a pair of numbers with one outside the bounds is
    refused for its bounds.  The two numbers need not be in ascending
    order. *)
Theorem percentile_range_outcome (pr : option (list cell)) :
  (check_percentile_range pr = Ok () ↔
     pr = None ∨ ∃ a b, pr = Some [a; b] ∧ percent_pair a b) ∧
  (check_percentile_range pr = Raise (ValueError RangeLength) ↔
     ∃ l, pr = Some l ∧ length l ≠ 2%nat) ∧
  (check_percentile_range pr = Raise (ValueError RangeBounds) ↔
     ∃ x y, pr = Some [Num x; Num y] ∧ ¬ (in_percent x ∧ in_percent y)).
Proof.
  assert (∀ P Q : Prop, P → Q → P ↔ Q) as Hyes by tauto.
  assert (∀ P Q : Prop, ¬ P → ¬ Q → P ↔ Q) as Hno by tauto.
  destruct pr as [l|].
  2:{ split; [apply Hyes; [done|by left]|].
      split; apply Hno; try done.
      - by intros (l & ? & _).
      - by intros (a & b & ? & _). }
  destruct (decide (length l = 2%nat)) as [Hlen|Hlen].
  - destruct l as [|a [|b [|c l]]]; try done.
    destruct (check_percentile_range_pair a b) as [[Hin ->]|[Hin ->]].
    + split; [apply Hyes; [done|right; by exists a, b]|].
      split; apply Hno; try done.
      * intros (l & Heq & Hl). by simplify_eq.
      * intros (x & y & Heq & Hnot). by simplify_eq.
    + split; [apply Hno; [done|]|split; [apply Hno; [done|]|apply Hyes; [done|]]].
      * intros [?|(a' & b' & Heq & Hab)]; by simplify_eq.
      * intros (l & Heq & Hl). by simplify_eq.
      * destruct a as [|x], b as [|y]; try (by destruct Hin). by exists x, y.
  - assert (check_percentile_range (Some l) = Raise (ValueError RangeLength)) as ->.
    { unfold check_percentile_range. by rewrite decide_True. }
    split; [apply Hno; [done|]|split; [apply Hyes; [done|]|apply Hno; [done|]]].
    + intros [?|(a & b & Heq & _)]; by simplify_eq.
    + by exists l.
    + intros (a & b & Heq & _). by simplify_eq.
Qed.

(** X2: the feature block lets an argument through exactly when it is the
    name of a column, or a list of two names or more that are all columns
    and leave out one column at least. *)
Theorem check_feature_accepts_iff (d : DataFrame) (feature : colspec) :
  (∃ ft, check_feature d feature = Ok ft) ↔ names_accepted d feature.
Proof.
  destruct feature as [f|l|]; simpl.
  - case_decide as Hf.
    + split; [by intros [? ?]|done].
    + rewrite getitem_Ok by done. simpl.
      split; [done|]. intros _. destruct (unique_is_01 _); eauto.
  - case_decide as Hlen; [split; [by intros [? ?]|lia]|].
    destruct (set_lt l (columns d)) eqn:Hlt; simpl.
    + apply set_lt_spec in Hlt. split; [|eauto]. intros _. split; [lia|done].
    + split; [by intros [? ?]|]. intros (_ & Hsub & Hex).
      assert (set_lt l (columns d) = true) by (by apply set_lt_spec). congruence.
  - split; [by intros [? ?]|done].
Qed.

(** X3: every failure of the feature block is an InvalidFeature error and
    every failure of the target block is an InvalidTarget error; no failed
    lookup of a column escapes from either. *)
Theorem validation_error_classes (d : DataFrame) (s : colspec) (e : exn) :
  (check_feature d s = Raise e → taxonomy e = Some InvalidFeature) ∧
  (check_target d s = Raise e → taxonomy e = Some InvalidTarget).
Proof.
  split.
  - destruct s as [f|l|]; simpl.
    + case_decide as Hf; [by intros [= <-]|].
      rewrite getitem_Ok by done. simpl.
      by destruct (unique_is_01 _).
    + repeat case_match; by intros [= <-].
    + by intros [= <-].
  - destruct s as [t|l|]; simpl.
    + case_decide as Ht; [by intros [= <-]|].
      rewrite getitem_Ok by done. simpl.
      by destruct (unique_is_01 _).
    + case_decide; [by intros [= <-]|].
      destruct (set_lt l (columns d)) eqn:Hlt; simpl; [|by intros [= <-]].
      apply set_lt_spec in Hlt as [Hsub _].
      destruct (check_onehot_targets d l) as [[]|e'] eqn:Hloop; simpl; [done|].
      intros [= <-].
      by apply check_onehot_targets_Raise in Hloop as (? & _ & _ & ->).
    + by intros [= <-].
Qed.

(** X4: for a string target that names a column, the inferred target
    type is [binary] when the set of distinct values of the column is
    exactly {0, 1}, and [regression] otherwise. *)
Theorem target_type_inference (d : DataFrame) (t : string) :
  t ∈ columns d →
  (values_01 (column d t) → check_target d (PStr t) = Ok binary_target) ∧
  (¬ values_01 (column d t) → check_target d (PStr t) = Ok regression).
Proof.
  intros Ht. simpl. rewrite decide_False by (by intros ?).
  rewrite getitem_Ok by done. simpl. split.
  - intros Hv%unique_is_01_spec. by rewrite Hv.
  - intros Hv%unique_is_01_false. by rewrite Hv.
Qed.

(** X5: a list target is accepted, as [multi-class], exactly when it has
    the shape the validation lets through and each of its columns has
    {0, 1} as its set of distinct values. *)
Theorem check_target_list_accepts_iff (d : DataFrame) (l : list string) (tt : target_type) :
  check_target d (PList l) = Ok tt ↔
  tt = multi_class ∧ names_accepted d (PList l) ∧
  ∀ c, c ∈ l → values_01 (column d c).
Proof.
  simpl. case_decide as Hlen; [split; [done|lia]|].
  destruct (set_lt l (columns d)) eqn:Hlt; simpl.
  - apply set_lt_spec in Hlt as [Hsub Hex].
    destruct (check_onehot_targets d l) as [[]|e] eqn:Hloop; simpl.
    + pose proof (proj1 (check_onehot_targets_Ok d l Hsub) Hloop) as Hall.
      split; [intros [= <-]|by intros [-> _]].
      split; [done|]. split; [|done]. split; [lia|done].
    + split; [done|]. intros (_ & _ & Hall).
      apply (proj2 (check_onehot_targets_Ok d l Hsub)) in Hall. congruence.
  - split; [done|]. intros (_ & (_ & Hsub & Hex) & _).
    assert (set_lt l (columns d) = true) by (by apply set_lt_spec). congruence.
Qed.

(** X6: when a list target has the accepted shape, the error names the
    first listed column, in list order, whose values are not 0 and 1. *)
Theorem first_offending_target (d : DataFrame) (l1 l2 : list string) (c : string) :
  names_accepted d (PList (l1 ++ c :: l2)) →
  (∀ c', c' ∈ l1 → values_01 (column d c')) →
  ¬ values_01 (column d c) →
  check_target d (PList (l1 ++ c :: l2)) = Raise (ValueError (TargetNotOneHot c)).
Proof.
  intros (Hlen & Hsub & Hex) Hl1 Hc. simpl.
  rewrite decide_False by lia.
  assert (set_lt (l1 ++ c :: l2) (columns d) = true) as ->
    by (by apply set_lt_spec).
  simpl.
  assert (check_onehot_targets d (l1 ++ c :: l2)
          = Raise (ValueError (TargetNotOneHot c))) as ->; [|done].
  clear Hlen Hex. induction l1 as [|c1 l1 IH]; simpl.
  - rewrite getitem_Ok by (apply Hsub; left). simpl.
    apply unique_is_01_false in Hc. by rewrite Hc.
  - rewrite getitem_Ok by (apply Hsub; left). simpl.
    assert (unique_is_01 (column d c1) = true) as ->
      by (apply unique_is_01_spec, Hl1; left).
    simpl. apply IH.
    + intros c' Hc'. apply Hsub. by right.
    + intros c' Hc'. apply Hl1. by right.
Qed.

(** X7: a column that holds a null cell is never taken for a 0/1 column:
    as a string feature it is [numeric], as a string target it is
    [regression], and no list target that names it is accepted. *)
Theorem null_cell_not_binary (d : DataFrame) (c : string) :
  c ∈ columns d →
  NaN ∈ column d c →
  check_feature d (PStr c) = Ok numeric ∧
  check_target d (PStr c) = Ok regression ∧
  ∀ l tt, c ∈ l → check_target d (PList l) ≠ Ok tt.
Proof.
  intros Hc Hnan.
  assert (¬ values_01 (column d c)) as Hnot.
  { intros Hv. apply Hv in Hnan as [?|?]; done. }
  assert (unique_is_01 (column d c) = false) as H01
    by (by apply unique_is_01_false).
  split; [|split].
  - simpl. rewrite decide_False by (by intros ?).
    rewrite getitem_Ok by done. simpl. by rewrite H01.
  - simpl. rewrite decide_False by (by intros ?).
    rewrite getitem_Ok by done. simpl. by rewrite H01.
  - intros l tt Hl. simpl. case_decide; [done|].
    destruct (set_lt l (columns d)) eqn:Hlt; simpl; [|done].
    apply set_lt_spec in Hlt as [Hsub _].
    destruct (check_onehot_targets d l) as [[]|e] eqn:Hloop; simpl; [|done].
    pose proof (proj1 (check_onehot_targets_Ok d l Hsub) Hloop) as Hall.
    destruct Hnot. by apply Hall.
Qed.

(** ** The working copy *)

Lemma check_feature_Ok_names (d : DataFrame) (feature : colspec) (ft : feature_type) :
  check_feature d feature = Ok ft → ∀ c, c ∈ spec_names feature → c ∈ columns d.
Proof.
  destruct feature as [f|l|]; simpl; [| |done].
  - case_decide as Hf; [done|]. intros _ c ->%list_elem_of_singleton. done.
  - case_decide; [done|].
    destruct (set_lt l (columns d)) eqn:Hlt; [|done].
    intros _. by apply set_lt_spec in Hlt as [? _].
Qed.

Lemma check_target_Ok_names (d : DataFrame) (target : colspec) (tt : target_type) :
  check_target d target = Ok tt → ∀ c, c ∈ spec_names target → c ∈ columns d.
Proof.
  destruct target as [t|l|]; simpl; [| |done].
  - case_decide as Ht; [done|]. intros _ c ->%list_elem_of_singleton. done.
  - case_decide; [done|].
    destruct (set_lt l (columns d)) eqn:Hlt; [|done].
    intros _. by apply set_lt_spec in Hlt as [? _].
Qed.

Lemma select_Ok (d : DataFrame) (cs : list string) :
  (∀ c, c ∈ cs → c ∈ columns d) →
  select d cs = Ok {| columns := cs;
                      rows := filter (λ kv, kv.1 ∈ cs) <$> rows d |}.
Proof.
  intros Hcs. unfold select.
  assert (list_find (λ c, c ∉ columns d) cs = None) as ->; [|done].
  apply list_find_None, Forall_forall. intros c Hc Hnot. by apply Hnot, Hcs.
Qed.

Lemma at_col_filter (cs : list string) (c : string) (r : gmap string cell) :
  c ∈ cs → at_col c (filter (λ kv, kv.1 ∈ cs) r) = at_col c r.
Proof.
  intros Hc. unfold at_col. rewrite map_lookup_filter.
  destruct (r !! c) as [v|]; simpl; [|done].
  by rewrite option_guard_True.
Qed.

(** X8: once the feature and the target have passed validation, taking
    the working copy [df[useful_features]] cannot fail: the copy has the
    feature names followed by the target names as its columns, as many rows
    as [df], and under each of these names the cells that [df] has. *)
Theorem working_copy_after_validation (d : DataFrame) (feature target : colspec)
    (ft : feature_type) (tt : target_type) :
  check_feature d feature = Ok ft →
  check_target d target = Ok tt →
  ∃ copy,
    select d (spec_names feature ++ spec_names target) = Ok copy ∧
    columns copy = spec_names feature ++ spec_names target ∧
    length (rows copy) = length (rows d) ∧
    ∀ c, c ∈ columns copy → column copy c = column d c.
Proof.
  intros Hf Ht. eexists. split.
  - apply select_Ok. intros c [Hc|Hc]%elem_of_app.
    + by eapply check_feature_Ok_names.
    + by eapply check_target_Ok_names.
  - cbn. split; [done|]. split; [by rewrite length_fmap|].
    intros c Hc. unfold column. cbn. rewrite <-list_fmap_compose.
    apply list_fmap_ext. intros i r _. cbn. by apply at_col_filter.
Qed.

(** ** The effects of [target_plot] *)

Section target_plot_effects.
Context {params : Type}.
Variable _prepare_data_x :
  colspec → feature_type → DataFrame → grid_config → option (list cell) →
  outcome (frame_ref * list string * option (list string)) * DataFrame.
Variable _target_plot :
  target_plot_args params → list draw_event → outcome Axes * list draw_event.

(** X9: a call of [target_plot] that fails with an error of the taxonomy
    (InvalidFeature, InvalidRange or InvalidTarget) has changed nothing: no
    frame object was made and nothing was drawn. *)
Theorem taxonomy_failure_leaves_state σ σ' df feature fname target cfg pr figsize ax pp e :
  target_plot _prepare_data_x _target_plot df feature fname target cfg pr
    figsize ax pp σ = (Raise e, σ') →
  is_Some (taxonomy e) →
  σ' = σ.
Proof.
  intros Hrun [c Hc]. revert Hrun.
  exec; intros; simplify_eq; try done.
  all: exfalso.
  all: repeat match goal with
       | H : from_collaborator ?o = Raise _ |- _ => destruct o; simplify_eq/=
       | H : aggregator _ _ _ = Raise _ |- _ => apply aggregator_Raise in H
       | H : select _ _ = Raise _ |- _ =>
           unfold select in H; repeat case_match; simplify_eq
       end; try done; try congruence.
Qed.

(** X10: every frame object that exists when [target_plot] is called is
    the same afterwards, however the call ends; the call only makes new
    objects and writes to those. *)
Theorem existing_frames_unchanged σ df feature fname target cfg pr figsize ax pp l :
  l ∈ dom (heap σ) →
  heap (target_plot _prepare_data_x _target_plot df feature fname target cfg pr
          figsize ax pp σ).2 !! l = heap σ !! l.
Proof.
  intros Hl. exec; try done.
  all: repeat (rewrite lookup_insert_fresh
                 by (rewrite ?dom_insert_L; set_solver)).
  all: done.
Qed.

(** X11: [target_plot] draws nothing itself: when the canvas differs
    after a call, it is as the renderer [_target_plot], called on the canvas
    of before the call, has left it. *)
Theorem canvas_written_by_renderer_only σ σ' df feature fname target cfg pr figsize ax pp r :
  target_plot _prepare_data_x _target_plot df feature fname target cfg pr
    figsize ax pp σ = (r, σ') →
  canvas σ' = canvas σ ∨
  ∃ args out, _target_plot args (canvas σ) = (out, canvas σ').
Proof.
  exec; intros [= <- <-]; cbn [canvas]; auto.
  all: right; eauto.
Qed.
End target_plot_effects.


(** ** The aggregates *)

Lemma grouped_total (dx : DataFrame) (col : string) (f : aggfun) :
  "x" ∈ columns dx → col ∈ columns dx → ∃ g, grouped dx col f = Ok g.
Proof.
  intros Hx Hcol. unfold grouped, groupby_agg.
  rewrite !decide_False by (by intros ?).
  cbn [mbind result_bind]. unfold sort_values. cbn [columns rows].
  rewrite decide_False by (intros Hnot; apply Hnot; left).
  eauto.
Qed.

Lemma target_lines_loop_total (dx : DataFrame) (ts : list string) :
  "x" ∈ columns dx → (∀ t, t ∈ ts → t ∈ columns dx) →
  ∃ lines, target_lines_loop dx ts = Ok lines.
Proof.
  intros Hx. induction ts as [|t ts IH]; intros Hts; simpl; [eauto|].
  destruct (grouped_total dx t mean) as [g ->]; [done|apply Hts; left|].
  destruct IH as [rest ->]; [intros t' Ht'; apply Hts; by right|].
  simpl. eauto.
Qed.

(** The target type goes with the kind of the target argument. *)
Lemma check_target_kind (d : DataFrame) (target : colspec) (tt : target_type) :
  check_target d target = Ok tt →
  match target with
  | PStr _ => tt = binary_target ∨ tt = regression
  | PList _ => tt = multi_class
  | POther => False
  end.
Proof.
  destruct target as [t|l|]; simpl; [| |done].
  - case_decide; [done|]. destruct (getitem d t); simpl; [|done].
    destruct (unique_is_01 _); intros [= <-]; auto.
  - repeat case_match; try done.
    destruct (check_onehot_targets d l) as [[]|]; simpl; [|done].
    by intros [= <-].
Qed.

Lemma make_target_lines_total (d dx : DataFrame) (target : colspec) (tt : target_type) :
  check_target d target = Ok tt →
  "x" ∈ columns dx → (∀ t, t ∈ spec_names target → t ∈ columns dx) →
  ∃ lines, make_target_lines dx target tt = Ok lines.
Proof.
  intros Hkind%check_target_kind Hx Hts.
  destruct target as [t|l|]; [| |done].
  - destruct (grouped_total dx t mean) as [g Hg]; [done|apply Hts; left|].
    unfold make_target_lines.
    destruct Hkind as [-> | ->]; rewrite Hg; simpl; eauto.
  - subst tt. simpl. by apply target_lines_loop_total.
Qed.



Lemma setitem_scalar_columns (d : DataFrame) (k c : string) (v : cell) :
  c ∈ columns (setitem_scalar d k v) ↔ c = k ∨ c ∈ columns d.
Proof.
  unfold setitem_scalar. cbn. case_decide as Hk.
  - split; [by right|]. by intros [->|?].
  - rewrite elem_of_app, list_elem_of_singleton. tauto.
Qed.

Lemma setitem_scalar_other (d : DataFrame) (k c : string) (v : cell) :
  c ≠ k → column (setitem_scalar d k v) c = column d c.
Proof.
  intros Hne. unfold column, setitem_scalar. cbn.
  rewrite <-list_fmap_compose. apply list_fmap_ext. intros i r _. cbn.
  unfold at_col. by rewrite lookup_insert_ne.
Qed.

Section target_plot_runs.
Context {params : Type}.
Variable _prepare_data_x :
  colspec → feature_type → DataFrame → grid_config → option (list cell) →
  outcome (frame_ref * list string * option (list string)) * DataFrame.
Variable _target_plot :
  target_plot_args params → list draw_event → outcome Axes * list draw_event.

(** X12: [target_plot] returns an axes handle whenever the three
    validation blocks pass, the grid builder returns a binned frame that has
    the column [x] and the target columns, and the renderer returns. *)
Theorem target_plot_returns σ df d feature fname target cfg pr figsize ax pp
    ft tt copy ref display_columns percentile_columns d' :
  heap σ !! df = Some d →
  check_feature d feature = Ok ft →
  check_percentile_range pr = Ok () →
  check_target d target = Ok tt →
  select d (spec_names feature ++ spec_names target) = Ok copy →
  _prepare_data_x feature ft copy cfg pr
    = (Returned (ref, display_columns, percentile_columns), d') →
  "x" ∈ columns (binned_frame ref d') →
  (∀ t, t ∈ spec_names target → t ∈ columns (binned_frame ref d')) →
  (∀ args c, ∃ axes c', _target_plot args c = (Returned axes, c')) →
  ∃ axes σ',
    target_plot _prepare_data_x _target_plot df feature fname target cfg pr
      figsize ax pp σ = (Ok (PyAxes axes), σ').
Proof.
  intros Hd Hf Hr Ht Hsel Hprep Hx Hts Hrender.
  set (dx := setitem_scalar (binned_frame ref d') "fake_count" (Num 1)).
  assert ("x" ∈ columns dx) as Hx' by (apply setitem_scalar_columns; by right).
  destruct (grouped_total dx "fake_count" count) as [bar Hbar];
    [done|apply setitem_scalar_columns; by left|].
  destruct (make_target_lines_total d dx target tt) as [lines Hlines];
    [done|done|intros t Ht'; apply setitem_scalar_columns; right; by apply Hts|].
  assert (aggregator dx target tt = Ok (bar, lines)) as Hagg.
  { unfold aggregator. by rewrite Hbar, Hlines. }
  unfold target_plot, call_prepare_data_x, mbind, M_bind, mret, M_ret,
    load, store, alloc, lift, draw.
  rewrite Hd, Hf, Hr, Ht, Hsel. cbn [heap canvas].
  rewrite lookup_insert_eq, Hprep. cbn [heap canvas from_collaborator].
  destruct ref as [|dxnew]; cbn [heap canvas binned_frame] in *.
  - rewrite !lookup_insert_eq. fold dx. rewrite Hagg.
    match goal with |- context [_target_plot ?args ?c] =>
      destruct (Hrender args c) as (axes & c' & ->) end.
    cbn. eauto.
  - rewrite !lookup_insert_eq. fold dx. rewrite Hagg.
    match goal with |- context [_target_plot ?args ?c] =>
      destruct (Hrender args c) as (axes & c' & ->) end.
    cbn. eauto.
Qed.


End target_plot_runs.


(** ** The means of a target line *)

Lemma Qc_of_nat_S (n : nat) : Qc_of_nat (S n) = 1 + Qc_of_nat n.
Proof.
  unfold Qc_of_nat. rewrite Nat2Z.inj_succ, <-Z.add_1_l.
  by rewrite Z2Qc_inj_add, Z2Qc_inj_1.
Qed.

Lemma Qc_of_nat_pos (n : nat) : (0 < n)%nat → 0 < Qc_of_nat n.
Proof.
  intros Hn. unfold Qc_of_nat. rewrite <-Z2Qc_inj_0.
  apply (proj1 (Z2Qc_inj_lt 0 (Z.of_nat n))). lia.
Qed.

Lemma Qc_sum_bounds (lo hi : Qc) (ns : list Qc) :
  Forall (λ v, lo ≤ v ∧ v ≤ hi) ns →
  Qc_of_nat (length ns) * lo ≤ Qc_sum ns ∧ Qc_sum ns ≤ Qc_of_nat (length ns) * hi.
Proof.
  induction 1 as [|v ns [Hlo Hhi] _ [IHlo IHhi]].
  - cbn. change (Qc_of_nat 0) with (Qc_of_Z 0). rewrite Z2Qc_inj_0.
    by rewrite !Qcmult_0_l.
  - cbn [length]. rewrite Qc_of_nat_S, !Qcmult_plus_distr_l, !Qcmult_1_l.
    unfold Qc_sum in *. cbn [foldr]. split; by apply Qcplus_le_compat.
Qed.

Lemma mean_bounds (lo hi : Qc) (ns : list Qc) :
  ns ≠ [] →
  Forall (λ v, lo ≤ v ∧ v ≤ hi) ns →
  lo ≤ Qc_sum ns / Qc_of_nat (length ns) ∧ Qc_sum ns / Qc_of_nat (length ns) ≤ hi.
Proof.
  intros Hne [Hlo Hhi]%Qc_sum_bounds.
  assert (0 < Qc_of_nat (length ns)) as Hpos.
  { apply Qc_of_nat_pos. destruct ns; [done|simpl; lia]. }
  assert (Qc_of_nat (length ns) ≠ 0) as Hnz.
  { intros Heq. rewrite Heq in Hpos. by apply Qclt_not_eq in Hpos. }
  split.
  - apply (Qcmult_le_mono_pos_l _ _ _ Hpos). by rewrite Qcmult_div_r.
  - apply (Qcmult_le_mono_pos_l _ _ _ Hpos). by rewrite Qcmult_div_r.
Qed.

(** X15: for a target column other than [x] whose cells in the binned
    frame are all 0 or 1, every bin of the target line has a rate, which is
    never null and lies between 0 and 1.  (A sum of zeros and ones and a
    count are whole numbers, and rounding their quotient to a double keeps
    it between 0 and 1, so the bounds do not depend on the mean being
    exact.) *)
Theorem target_rates_in_unit_interval (dx line : DataFrame) (t : string) :
  grouped dx t mean = Ok line →
  t ≠ "x" →
  (∀ row, row ∈ rows dx → at_col t row = Num 0 ∨ at_col t row = Num 1) →
  ∀ i k, bin_ids line !! i = Some (Num k) →
    ∃ m, column line t !! i = Some (Num m) ∧ 0 ≤ m ∧ m ≤ 1.
Proof.
  intros [_ Hrows]%grouped_Ok Hne H01 i k.
  unfold bin_ids, column. rewrite Hrows, <-!list_fmap_compose.
  rewrite !list_lookup_fmap.
  destruct (group_keys _ !! i) as [k'|] eqn:Hk; [|done]. cbn.
  rewrite at_col_key_row. intros [= ->].
  rewrite at_col_agg_row by done.
  assert (Forall (λ v, 0 ≤ v ∧ v ≤ 1)
            (omap cell_num (at_col t <$> group_rows dx "x" k))) as Hall.
  { apply Forall_forall. intros v Hv.
    apply elem_of_omap_cell_num, list_elem_of_fmap in Hv as (row & Hv & Hrow).
    apply list_elem_of_filter in Hrow as [_ Hrow].
    destruct (H01 row Hrow) as [H0|H1].
    - rewrite H0 in Hv. injection Hv as ->. split; by vm_compute.
    - rewrite H1 in Hv. injection Hv as ->. split; by vm_compute. }
  assert (omap cell_num (at_col t <$> group_rows dx "x" k) ≠ []) as Hsome.
  { apply list_elem_of_lookup_2, elem_of_distinct_ascending in Hk.
    apply list_elem_of_fmap in Hk as (row & Hkey & Hrow).
    assert (row ∈ group_rows dx "x" k) as Hg by (by apply list_elem_of_filter).
    assert (∃ v, at_col t row = Num v) as [v Hv]
      by (destruct (H01 row Hrow) as [->| ->]; eauto).
    assert (v ∈ omap cell_num (at_col t <$> group_rows dx "x" k)) as Hin.
    { apply elem_of_omap_cell_num, list_elem_of_fmap. by exists row. }
    intros Hnil. rewrite Hnil in Hin. by apply elem_of_nil in Hin. }
  unfold aggregate.
  destruct (omap cell_num (at_col t <$> group_rows dx "x" k)) as [|v ns] eqn:Hns;
    [done|].
  eexists. split; [done|]. by apply mean_bounds.
Qed.

(** ** The layout and the class selector of [actual_plot] *)

(** X16: for a positive number of columns, the number of rows computed
    for [n] classes gives a grid with a cell for each class and no row to
    spare, so that taking the cell of a class never fails. *)
Theorem grid_has_a_cell_per_class (n : nat) (ncols : Z) :
  (0 < ncols)%Z →
  ∃ nrows,
    ceil_div (Z.of_nat n) ncols = Ok nrows ∧
    (Z.of_nat n ≤ nrows * ncols)%Z ∧
    ((nrows - 1) * ncols < Z.of_nat n)%Z ∧
    ∀ i, (i < n)%nat →
      gridspec_getitem {| nrows := nrows; ncols := ncols |} i
        = Ok (SubplotCell {| nrows := nrows; ncols := ncols |} i).
Proof.
  intros Hpos. unfold ceil_div. rewrite decide_False by lia.
  eexists. split; [done|].
  pose proof (Z.div_mod (- Z.of_nat n) ncols ltac:(lia)) as Hdm.
  pose proof (Z.mod_pos_bound (- Z.of_nat n) ncols Hpos) as Hmod.
  set (q := ((- Z.of_nat n) `div` ncols)%Z) in *.
  set (m := ((- Z.of_nat n) `mod` ncols)%Z) in *.
  assert (Z.of_nat n ≤ - q * ncols)%Z as Hcells by nia.
  split; [done|]. split; [nia|].
  intros i Hi. unfold gridspec_getitem. cbn. by rewrite decide_True by lia.
Qed.


Lemma class_dict_complete_wf {obj} (d : gmap string obj) :
  class_dict_complete d → class_dict_wf d.
Proof. intros Hc k Hk. apply Hc in Hk as (i & _ & ->). by exists i. Qed.

Section actual_plot_runs.
Context {params pdp_isolate_obj : Type}.
Variable _actual_plot_title :
  string → Axes → option (Qc * Qc) → bool → option Z → params →
  list draw_event → outcome unit * list draw_event.
Variable _actual_plot :
  pdp_isolate_obj → string → Qc → params → option SubplotSpec →
  list draw_event → outcome unit * list draw_event.

(** The two renderers return, whatever they are called with. *)
Hypothesis title_returns : ∀ fname ax figsize multi_flag which_class pp c,
  ∃ c', _actual_plot_title fname ax figsize multi_flag which_class pp c
        = (Returned (), c').
Hypothesis panel_returns : ∀ o fname figwidth pp outer c,
  ∃ c', _actual_plot o fname figwidth pp outer c = (Returned (), c').

Lemma class_panels_total (d : gmap string pdp_isolate_obj) fname figwidth pp outer
    (classes : list nat) :
  (∀ i, i ∈ classes →
     is_Some (d !! class_key (Z.of_nat i)) ∧
     (Z.of_nat i < nrows outer * ncols outer)%Z) →
  ∀ σ, ∃ σ',
    class_panels _actual_plot d fname figwidth pp outer classes σ = (Ok (), σ').
Proof.
  induction classes as [|i classes IH]; intros Hall σ; simpl.
  - eexists. reflexivity.
  - destruct (Hall i) as [[o Ho] Hcell]; [left|].
    unfold mbind, M_bind, lift, draw, gridspec_getitem.
    rewrite Ho, decide_True by done. cbn.
    destruct (panel_returns o (fname +:+ " " +:+ class_key (Z.of_nat i))
                figwidth pp (Some (SubplotCell outer i)) (canvas σ)) as [c' ->].
    cbn. apply IH. intros j Hj. apply Hall. by right.
Qed.

(** X17: given a result that holds one class at least and all its
    classes, no [multi_flag], a number of columns that is positive (or left
    to its default of 2) and renderers that return, [actual_plot] draws the
    panels of all classes and returns: the grid has a row at least, no
    class is missing and no grid cell is out of range. *)
Theorem small_multiples_return σ (d : gmap string pdp_isolate_obj)
    fname figsize pp which_class ncols :
  (0 < size d)%nat →
  class_dict_complete d →
  (0 < default 2 ncols)%Z →
  ∃ σ',
    actual_plot _actual_plot_title _actual_plot (ClassDict d) fname figsize pp
      false which_class ncols σ = (Ok PyNone, σ').
Proof.
  intros Hsize Hcomplete Hcols.
  unfold actual_plot, plt_figure, plt_subplot, mbind, M_bind, mret, M_ret,
    lift, draw, check_which_class, ceil_div, gridspec_new.
  cbn [heap canvas from_collaborator].
  match goal with |- context [_actual_plot_title ?a ?b ?c ?e ?f ?g ?h] =>
    destruct (title_returns a b c e f g h) as [c1 ->] end.
  rewrite decide_False by lia. cbn [heap canvas from_collaborator].
  set (k := default 2%Z ncols) in *.
  pose proof (Z.div_mod (- Z.of_nat (size d)) k ltac:(lia)) as Hdm.
  pose proof (Z.mod_pos_bound (- Z.of_nat (size d)) k Hcols) as Hmod.
  rewrite decide_True by (split; [nia|done]).
  cbn [heap canvas from_collaborator].
  match goal with |- context [class_panels _ d fname ?w pp ?outer ?cl ?s] =>
    destruct (class_panels_total d fname w pp outer cl) with (σ := s)
      as [σ' ->] end.
  - intros i Hi%elem_of_seq. split.
    + apply Hcomplete. exists i. split; [lia|done].
    + cbn. nia.
  - eauto.
Qed.

(** X18: given a result with all its classes and renderers that return,
    a call with [multi_flag] and an integer [which_class] returns exactly
    when [which_class] is a class index: at least 0 and below the number of
    classes. *)
Theorem class_selection_returns_iff σ (d : gmap string pdp_isolate_obj)
    fname figsize pp (wc : Z) ncols :
  class_dict_complete d →
  (∃ σ',
     actual_plot _actual_plot_title _actual_plot (ClassDict d) fname figsize pp
       true (Some wc) ncols σ = (Ok PyNone, σ'))
  ↔ (0 ≤ wc < Z.of_nat (size d))%Z.
Proof.
  intros Hcomplete.
  unfold actual_plot, plt_figure, plt_subplot, check_which_class,
    mbind, M_bind, result_bind, mret, M_ret, lift, draw.
  cbn [heap canvas from_collaborator].
  destruct (decide (wc >= Z.of_nat (size d))%Z) as [Hge|Hlt].
  { split; [intros [? [=]]|lia]. }
  cbn [heap canvas from_collaborator].
  destruct (decide (0 ≤ wc)%Z) as [Hpos|Hneg].
  - assert (is_Some (d !! class_key wc)) as [o Ho].
    { apply Hcomplete. exists (Z.to_nat wc). split; [lia|].
      by rewrite Z2Nat.id. }
    rewrite Ho. cbn [heap canvas from_collaborator].
    match goal with |- context [_actual_plot_title ?a ?b ?c ?e ?f ?g ?h] =>
      destruct (title_returns a b c e f g h) as [c1 ->] end.
    cbn [heap canvas from_collaborator].
    match goal with |- context [_actual_plot ?a ?b ?c ?e ?f ?g] =>
      destruct (panel_returns a b c e f g) as [c2 ->] end.
    cbn [heap canvas from_collaborator].
    split; [lia|eauto].
  - rewrite (class_dict_wf_negative d wc) by
      (by apply class_dict_complete_wf || lia).
    cbn. split; [intros [? [=]]|lia].
Qed.
End actual_plot_runs.

Section actual_plot_failures.
Context {params pdp_isolate_obj : Type}.
Variable _actual_plot_title :
  string → Axes → option (Qc * Qc) → bool → option Z → params →
  list draw_event → outcome unit * list draw_event.
Variable _actual_plot :
  pdp_isolate_obj → string → Qc → params → option SubplotSpec →
  list draw_event → outcome unit * list draw_event.

Lemma class_panels_Raise (d : gmap string pdp_isolate_obj) fname figwidth pp outer
    (classes : list nat) σ σ' e :
  class_panels _actual_plot d fname figwidth pp outer classes σ = (Raise e, σ') →
  taxonomy e = None.
Proof.
  revert σ. induction classes as [|i classes IH]; intros σ; simpl; [done|].
  unfold mbind, M_bind, lift, draw, gridspec_getitem.
  destruct (d !! class_key (Z.of_nat i)) as [o|]; [|by intros [= <- _]].
  case_decide; [|by intros [= <- _]].
  destruct (_actual_plot _ _ _ _ _ _) as [[[]|what] c'];
    cbn [from_collaborator]; [apply IH|by intros [= <- _]].
Qed.

(** X19: the only error of the taxonomy that [actual_plot] fails with is
    the one of the class selector, and only under [multi_flag], for a class
    mapping and an integer [which_class] that is not below the number of
    classes; nothing has been drawn then. *)
Theorem class_selector_error_only_when σ σ' (out : isolate_out pdp_isolate_obj)
    fname figsize pp multi_flag which_class ncols e :
  actual_plot _actual_plot_title _actual_plot out fname figsize pp multi_flag
    which_class ncols σ = (Raise e, σ') →
  is_Some (taxonomy e) →
  e = ValueError ClassNotExist ∧ σ' = σ ∧ multi_flag = true ∧
  ∃ d wc, out = ClassDict d ∧ which_class = Some wc ∧ (Z.of_nat (size d) ≤ wc)%Z.
Proof.
  intros Hrun [c Hc]. revert Hrun.
  unfold actual_plot, plt_figure, plt_subplot, check_which_class, ceil_div,
    gridspec_new, mbind, M_bind, result_bind, mret, M_ret, lift, draw.
  destruct multi_flag; cbn [heap canvas from_collaborator].
  - destruct out as [o|d]; [by intros [= <- _]|].
    destruct which_class as [wc|]; [|by intros [= <- _]].
    cbn [heap canvas from_collaborator].
    case_decide as Hwc.
    + intros [= <- <-]. repeat split; try done. exists d, wc.
      repeat split; [done..|lia].
    + cbn [heap canvas from_collaborator].
      destruct (d !! class_key wc) as [o|]; [|by intros [= <- _]].
      cbn [heap canvas from_collaborator].
      destruct (_actual_plot_title _ _ _ _ _ _ _) as [[[]|?] ?];
        cbn [heap canvas from_collaborator]; [|by intros [= <- _]].
      destruct (_actual_plot _ _ _ _ _ _) as [[[]|?] ?];
        cbn [heap canvas from_collaborator]; [done|by intros [= <- _]].
  - destruct out as [o|d]; cbn [heap canvas from_collaborator].
    + destruct (_actual_plot_title _ _ _ _ _ _ _) as [[[]|?] ?];
        cbn [heap canvas from_collaborator]; [|by intros [= <- _]].
      destruct (_actual_plot _ _ _ _ _ _) as [[[]|?] ?];
        cbn [heap canvas from_collaborator]; [done|by intros [= <- _]].
    + destruct (_actual_plot_title _ _ _ _ _ _ _) as [[[]|?] ?];
        cbn [heap canvas from_collaborator]; [|by intros [= <- _]].
      case_decide; [by intros [= <- _]|].
      cbn [heap canvas from_collaborator].
      case_decide; [|by intros [= <- _]].
      cbn [heap canvas from_collaborator].
      destruct (class_panels _ _ _ _ _ _ _ _) as [[[]|e'] σ1] eqn:Hpanels;
        [done|].
      intros [= <- <-]. apply class_panels_Raise in Hpanels. congruence.
Qed.
End actual_plot_failures.


(** ** The further properties at concrete inputs *)

Lemma names_accepted_list (d : DataFrame) (l : list string) :
  (2 ≤ length l)%nat → set_lt l (columns d) = true → names_accepted d (PList l).
Proof. intros Hlen [? ?]%set_lt_spec. by split. Qed.

Lemma example_title_returns fname ax figsize multi_flag which_class pp c :
  ∃ c', Example.title fname ax figsize multi_flag which_class pp c = (Returned (), c').
Proof. eexists. reflexivity. Qed.

Lemma example_panel_returns o fname figwidth pp outer c :
  ∃ c', Example.panel o fname figwidth pp outer c = (Returned (), c').
Proof. eexists. reflexivity. Qed.

Lemma example_render_returns args c :
  ∃ axes c', Example.render args c = (Returned axes, c').
Proof. eexists _, _. reflexivity. Qed.

Lemma three_classes_complete : class_dict_complete Example.three_classes.
Proof.
  assert (size Example.three_classes = 3%nat) as Hsize by (by vm_compute).
  intros k. rewrite Hsize. split.
  - intros Hk%elem_of_dom. unfold Example.three_classes in Hk.
    rewrite !dom_insert_L, dom_singleton_L in Hk.
    rewrite !elem_of_union, !elem_of_singleton in Hk.
    destruct Hk as [->|[->| ->]];
      [exists 0%nat|exists 1%nat|exists 2%nat]; (split; [lia|done]).
  - intros (i & Hi & ->).
    destruct i as [|[|[|i]]]; [vm_compute; eauto..|lia].
Qed.

Lemma binned_targets_01 :
  Forall (λ row, at_col "y" row = Num 0 ∨ at_col "y" row = Num 1)
    (rows Example.binned).
Proof. apply (bool_decide_unpack _). by vm_compute. Qed.

Lemma validation_error_classes_witness :
  check_feature Example.ages (PStr "nope")
    = Raise (ValueError (FeatureNotExist (PStr "nope"))) ∧
  taxonomy (ValueError (FeatureNotExist (PStr "nope"))) = Some InvalidFeature ∧
  check_target Example.mixed (PList ["a"; "b"])
    = Raise (ValueError (TargetNotOneHot "b")) ∧
  taxonomy (ValueError (TargetNotOneHot "b")) = Some InvalidTarget.
Proof.
  assert (check_feature Example.ages (PStr "nope")
          = Raise (ValueError (FeatureNotExist (PStr "nope")))) as Hf
    by (vm_compute; reflexivity).
  assert (check_target Example.mixed (PList ["a"; "b"])
          = Raise (ValueError (TargetNotOneHot "b"))) as Ht
    by (vm_compute; reflexivity).
  split; [exact Hf|]. split.
  - exact (proj1 (validation_error_classes _ _ _) Hf).
  - split; [exact Ht|]. exact (proj2 (validation_error_classes _ _ _) Ht).
Defined.

Lemma target_type_inference_witness :
  "a" ∈ columns Example.onehots ∧
  values_01 (column Example.onehots "a") ∧
  check_target Example.onehots (PStr "a") = Ok binary_target.
Proof.
  assert ("a" ∈ columns Example.onehots) as Hc by (cbn; left).
  assert (values_01 (column Example.onehots "a")) as Hv
    by (apply unique_is_01_spec; vm_compute; reflexivity).
  split; [exact Hc|]. split; [exact Hv|].
  exact (proj1 (target_type_inference _ _ Hc) Hv).
Defined.

Lemma first_offending_target_witness :
  names_accepted Example.mixed (PList (["a"] ++ "b" :: [])) ∧
  check_target Example.mixed (PList (["a"] ++ "b" :: []))
    = Raise (ValueError (TargetNotOneHot "b")).
Proof.
  assert (names_accepted Example.mixed (PList (["a"] ++ "b" :: []))) as Hacc
    by (apply names_accepted_list; [simpl; lia|vm_compute; reflexivity]).
  assert (∀ c', c' ∈ ["a"] → values_01 (column Example.mixed c')) as Hl1.
  { intros c' Hc'. apply list_elem_of_singleton in Hc' as ->.
    apply unique_is_01_spec. vm_compute. reflexivity. }
  assert (¬ values_01 (column Example.mixed "b")) as Hb
    by (apply unique_is_01_false; vm_compute; reflexivity).
  split; [exact Hacc|].
  exact (first_offending_target Example.mixed ["a"] [] "b" Hacc Hl1 Hb).
Defined.

Lemma null_cell_not_binary_witness :
  "f" ∈ columns Example.holes ∧
  NaN ∈ column Example.holes "f" ∧
  check_feature Example.holes (PStr "f") = Ok numeric ∧
  check_target Example.holes (PStr "f") = Ok regression ∧
  ∀ l tt, "f" ∈ l → check_target Example.holes (PList l) ≠ Ok tt.
Proof.
  assert ("f" ∈ columns Example.holes) as Hc by (cbn; left).
  assert (NaN ∈ column Example.holes "f") as Hnan.
  { assert (column Example.holes "f" = [Num 0; NaN; Num 1]) as ->
      by (vm_compute; reflexivity).
    right. left. }
  split; [exact Hc|]. split; [exact Hnan|].
  exact (null_cell_not_binary Example.holes "f" Hc Hnan).
Defined.

Lemma working_copy_after_validation_witness :
  check_feature Example.ages (PStr "age") = Ok numeric ∧
  check_target Example.ages (PStr "y") = Ok binary_target ∧
  ∃ copy,
    select Example.ages (spec_names (PStr "age") ++ spec_names (PStr "y")) = Ok copy ∧
    columns copy = spec_names (PStr "age") ++ spec_names (PStr "y") ∧
    length (rows copy) = length (rows Example.ages) ∧
    ∀ c, c ∈ columns copy → column copy c = column Example.ages c.
Proof.
  assert (check_feature Example.ages (PStr "age") = Ok numeric) as Hf
    by (vm_compute; reflexivity).
  assert (check_target Example.ages (PStr "y") = Ok binary_target) as Ht
    by (vm_compute; reflexivity).
  split; [exact Hf|]. split; [exact Ht|].
  exact (working_copy_after_validation _ _ _ _ _ Hf Ht).
Defined.

Lemma taxonomy_failure_leaves_state_witness :
  let run := Example.run_target_plot Example.ages (PStr "age") (PStr "y")
               (Some [Num (Qc_of_Z 10); Num (Qc_of_Z 105)]) in
  run = (Raise (ValueError RangeBounds), run.2) ∧
  is_Some (taxonomy (ValueError RangeBounds)) ∧
  run.2 = Example.world Example.ages.
Proof.
  intros run.
  assert (run = (Raise (ValueError RangeBounds), run.2)) as Hrun
    by (vm_compute; reflexivity).
  assert (is_Some (taxonomy (ValueError RangeBounds))) as Htax
    by (eexists; reflexivity).
  split; [exact Hrun|]. split; [exact Htax|].
  exact (taxonomy_failure_leaves_state Example.prepare Example.render
           (Example.world Example.ages) run.2 Example.df (PStr "age") "feature"
           (PStr "y") Example.cfg (Some [Num (Qc_of_Z 10); Num (Qc_of_Z 105)]) None None ()
           (ValueError RangeBounds) Hrun Htax).
Defined.

Lemma existing_frames_unchanged_witness :
  Example.df ∈ dom (heap (Example.world Example.ages)) ∧
  heap (Example.run_target_plot Example.ages (PStr "age") (PStr "y") None).2
    !! Example.df
  = heap (Example.world Example.ages) !! Example.df.
Proof.
  assert (Example.df ∈ dom (heap (Example.world Example.ages))) as Hl
    by (apply elem_of_dom; eexists; vm_compute; reflexivity).
  split; [exact Hl|].
  exact (existing_frames_unchanged Example.prepare Example.render
           (Example.world Example.ages) Example.df (PStr "age") "feature"
           (PStr "y") Example.cfg None None None () Example.df Hl).
Defined.

Lemma canvas_written_by_renderer_only_witness :
  let run := Example.run_target_plot Example.ages (PStr "age") (PStr "y") None in
  run = (run.1, run.2) ∧
  (canvas run.2 = canvas (Example.world Example.ages) ∨
   ∃ args out,
     Example.render args (canvas (Example.world Example.ages)) = (out, canvas run.2)).
Proof.
  intros run.
  assert (run = (run.1, run.2)) as Hrun by (by destruct run).
  split; [exact Hrun|].
  exact (canvas_written_by_renderer_only Example.prepare Example.render
           (Example.world Example.ages) run.2 Example.df (PStr "age") "feature"
           (PStr "y") Example.cfg None None None () run.1 Hrun).
Defined.

Lemma target_plot_returns_witness :
  ∃ axes σ',
    Example.run_target_plot Example.ages (PStr "age") (PStr "y") None
      = (Ok (PyAxes axes), σ').
Proof.
  unfold Example.run_target_plot.
  eapply (target_plot_returns Example.prepare Example.render
            (Example.world Example.ages) Example.df Example.ages (PStr "age")
            "feature" (PStr "y") Example.cfg None None None ()
            numeric binary_target).
  - vm_compute; reflexivity.
  - vm_compute; reflexivity.
  - reflexivity.
  - vm_compute; reflexivity.
  - apply select_Ok. intros c Hc. cbn in Hc. cbn.
    apply elem_of_cons in Hc as [->|Hc]; [left|].
    apply list_elem_of_singleton in Hc as ->. right. left.
  - reflexivity.
  - cbn. right. right. left.
  - intros t Ht. cbn in Ht. apply list_elem_of_singleton in Ht as ->.
    cbn. right. left.
  - exact example_render_returns.
Defined.



Lemma target_rates_in_unit_interval_witness :
  ∃ line,
    grouped Example.binned "y" mean = Ok line ∧
    ∀ i k, bin_ids line !! i = Some (Num k) →
      ∃ m, column line "y" !! i = Some (Num m) ∧ 0 ≤ m ∧ m ≤ 1.
Proof.
  destruct (grouped Example.binned "y" mean) as [line|e] eqn:Hline;
    [|exfalso; revert Hline; vm_compute; discriminate].
  exists line. split; [reflexivity|].
  assert ("y" ≠ "x") as Hne by discriminate.
  exact (target_rates_in_unit_interval Example.binned line "y" Hline Hne
           (proj1 (Forall_forall _ _) binned_targets_01)).
Defined.

Lemma grid_has_a_cell_per_class_witness :
  (0 < 2)%Z ∧
  ∃ nrows,
    ceil_div (Z.of_nat 3) 2 = Ok nrows ∧
    (Z.of_nat 3 ≤ nrows * 2)%Z ∧
    ((nrows - 1) * 2 < Z.of_nat 3)%Z ∧
    ∀ i, (i < 3)%nat →
      gridspec_getitem {| nrows := nrows; ncols := 2 |} i
        = Ok (SubplotCell {| nrows := nrows; ncols := 2 |} i).
Proof.
  assert (0 < 2)%Z as Hpos by lia.
  split; [exact Hpos|].
  exact (grid_has_a_cell_per_class 3 2 Hpos).
Defined.

Lemma small_multiples_return_witness :
  (0 < size Example.three_classes)%nat ∧
  class_dict_complete Example.three_classes ∧
  (0 < default 2 None)%Z ∧
  ∃ σ',
    Example.run_actual_plot (ClassDict Example.three_classes) false None
      = (Ok PyNone, σ').
Proof.
  assert (0 < size Example.three_classes)%nat as Hsize by (vm_compute; lia).
  assert (0 < default 2 None)%Z as Hcols by (simpl; lia).
  split; [exact Hsize|]. split; [exact three_classes_complete|].
  split; [exact Hcols|].
  exact (small_multiples_return Example.title Example.panel
           example_title_returns example_panel_returns
           {| heap := ∅; canvas := [] |} Example.three_classes "feature" None ()
           None None Hsize three_classes_complete Hcols).
Defined.

Lemma class_selection_returns_iff_witness :
  class_dict_complete Example.three_classes ∧
  ((∃ σ',
      Example.run_actual_plot (ClassDict Example.three_classes) true (Some 1%Z)
        = (Ok PyNone, σ'))
   ↔ (0 ≤ 1 < Z.of_nat (size Example.three_classes))%Z).
Proof.
  split; [exact three_classes_complete|].
  exact (class_selection_returns_iff Example.title Example.panel
           example_title_returns example_panel_returns
           {| heap := ∅; canvas := [] |} Example.three_classes "feature" None ()
           1%Z None three_classes_complete).
Defined.

Lemma class_selector_error_only_when_witness :
  let run := Example.run_actual_plot (ClassDict Example.three_classes) true
               (Some 5%Z) in
  run = (Raise (ValueError ClassNotExist), run.2) ∧
  is_Some (taxonomy (ValueError ClassNotExist)) ∧
  ValueError ClassNotExist = ValueError ClassNotExist ∧
  run.2 = {| heap := ∅; canvas := [] |} ∧ true = true ∧
  ∃ d wc, ClassDict Example.three_classes = ClassDict d ∧
          Some 5%Z = Some wc ∧ (Z.of_nat (size d) ≤ wc)%Z.
Proof.
  intros run.
  assert (run = (Raise (ValueError ClassNotExist), run.2)) as Hrun
    by (vm_compute; reflexivity).
  assert (is_Some (taxonomy (ValueError ClassNotExist))) as Htax
    by (eexists; reflexivity).
  split; [exact Hrun|]. split; [exact Htax|].
  exact (class_selector_error_only_when Example.title Example.panel
           {| heap := ∅; canvas := [] |} run.2 (ClassDict Example.three_classes)
           "feature" None () true (Some 5%Z) None (ValueError ClassNotExist)
           Hrun Htax).
Defined.
